(** * APITestValidator: a shallow embedding of [testvalidator.py]

    The validator sends one HTTP request per endpoint descriptor, compares
    the response with an expected status code and a list of expected JSON
    keys, and collects one result dictionary per endpoint.

    The embedding keeps the shape of the Python code:
    - dictionaries (parsed JSON objects, response headers, result records)
      are finite maps with string keys;
    - the [requests] client is a transition function of a server, threaded
      through a state-and-exception monad that also logs every request;
    - [try ... except requests.RequestException] is a handler that lets
      every other exception through. *)

From stdpp Require Import base numbers strings pretty list gmap.

Local Open Scope Z_scope.
Local Open Scope string_scope.
Local Open Scope list_scope.

(** ** Values *)

#[local] Set Warnings "-register-all".

(** A value returned by [json.loads]: [None], [bool], a number (kept as its
    literal), [str], [list] or [dict]. *)
Inductive json : Type :=
  | JNull
  | JBool (b : bool)
  | JNum (literal : string)
  | JStr (s : string)
  | JArr (items : list json)
  | JObj (fields : gmap string json).

(** The values stored in a result dictionary. *)
Inductive pyval : Type :=
  | VStr (s : string)
  | VInt (n : Z)
  | VBool (b : bool)
  | VList (l : list string).

#[global] Instance pyval_eq_dec : EqDecision pyval.
Proof. solve_decision. Defined.

(** The exceptions that the code can meet.  [JSONDecodeError] is
    [requests.exceptions.JSONDecodeError], which [Response.json()] raises on
    a body that is not JSON.  [ValueError] and [RecursionError] are also what
    the JSON decoder under [Response.json()] lets through on some bodies (an
    integer literal with too many digits, a nesting that is too deep). *)
Inductive exn : Type :=
  | RequestException (msg : string)
  | JSONDecodeError (msg : string)
  | ValueError (msg : string)
  | TypeError (msg : string)
  | RecursionError (msg : string).

#[global] Instance exn_eq_dec : EqDecision exn.
Proof. solve_decision. Defined.

(** [isinstance(e, requests.RequestException)]: in the class hierarchy of
    [requests], [JSONDecodeError] derives from [InvalidJSONError], which
    derives from [RequestException]. *)
Definition isinstance_RequestException (e : exn) : bool :=
  match e with
  | RequestException _ | JSONDecodeError _ => true
  | ValueError _ | TypeError _ | RecursionError _ => false
  end.

(** [str(e)] *)
Definition str (e : exn) : string :=
  match e with
  | RequestException msg | JSONDecodeError msg
  | ValueError msg | TypeError msg | RecursionError msg => msg
  end.

(** ** Requests and responses *)

Record request : Type := Request {
  req_method : string;
  req_url : string;
  req_json : option json
}.

(** [str.lower] on the characters of a header name. *)
Definition lower_ascii (c : Ascii.ascii) : Ascii.ascii :=
  let n := Ascii.N_of_ascii c in
  if ((65 <=? n) && (n <=? 90))%N then Ascii.ascii_of_N (n + 32) else c.

Fixpoint lower (s : string) : string :=
  match s with
  | EmptyString => EmptyString
  | String c s' => String (lower_ascii c) (lower s')
  end.

(** [response.headers] is a case-insensitive dictionary: it is stored under
    lower-cased names and looked up by the lower-cased name. *)
Definition headers_get (name : string) (headers : gmap string string)
  : option string :=
  headers !! lower name.

(** What the validator reads of a response.  [body] is the outcome of
    [response.json()]: [inr j] when the text parses to [j], [inl e] when the
    call raises [e].  On a text that is not JSON, [e] is a [JSONDecodeError]
    with the description of the decoding error; the decoder can also let
    another exception through. *)
Record response : Type := Response {
  status_code : Z;
  headers : gmap string string;
  body : exn + json
}.

(** What the client gets back for one request: a response, or a failure of
    the transport (connection refused, timeout, ...), which [requests]
    raises as a [RequestException] with the given description. *)
Inductive outcome : Type :=
  | Responded (r : response)
  | Failed (msg : string).

(** ** The monad of the validator *)

(** The world outside the program: the state of the server, and the requests
    sent so far, oldest first. *)
Record world (St : Type) : Type := World {
  server : St;
  sent : list request
}.
Arguments World {St} _ _.
Arguments server {St} _.
Arguments sent {St} _.

(** A computation either raises or returns, and leaves a world behind. *)
Definition M (St A : Type) : Type := world St → (exn + A) * world St.

Definition ret {St A} (a : A) : M St A := λ w, (inr a, w).

Definition raise {St A} (e : exn) : M St A := λ w, (inl e, w).

Definition bind {St A B} (c : M St A) (k : A → M St B) : M St B :=
  λ w, match c w with
       | (inl e, w') => (inl e, w')
       | (inr a, w') => k a w'
       end.

(** A pure step that may raise. *)
Definition lift {St A} (x : exn + A) : M St A := λ w, (x, w).

(** [try: c  except <class> as e: h e]; an exception outside the class is
    not handled. *)
Definition try_except {St A} (c : M St A) (class : exn → bool)
    (h : exn → M St A) : M St A :=
  λ w, match c w with
       | (inl e, w') => if class e then h e w' else (inl e, w')
       | (inr a, w') => (inr a, w')
       end.

Notation "x ←! c ; k" := (bind c (λ x, k))
  (at level 20, c at level 100, k at level 200, only parsing).
Notation "' pat ←! c ; k" := (bind c (λ x, match x with pat => k end))
  (at level 20, pat pattern, c at level 100, k at level 200, only parsing).

(** The same sequencing for a step that touches no world. *)
Definition ebind {A B} (x : exn + A) (k : A → exn + B) : exn + B :=
  match x with
  | inl e => inl e
  | inr a => k a
  end.

Notation "x ←? c ; k" := (ebind c (λ x, k))
  (at level 20, c at level 100, k at level 200, only parsing).

(** ** Membership and comprehensions *)

(** [needle in haystack] on two [str]: the substring test. *)
Fixpoint str_contains (needle haystack : string) : bool :=
  String.prefix needle haystack ||
  match haystack with
  | EmptyString => false
  | String _ rest => str_contains needle rest
  end.

(** [key == item] for a [str] key and a JSON value: only an equal [str] is
    equal to a [str]. *)
Definition eq_str (key : string) (item : json) : bool :=
  match item with
  | JStr s => bool_decide (key = s)
  | _ => false
  end.

(** [key in json_data].  A dict is searched by key, a list by element, a str
    by substring; the other values are not containers and raise a
    [TypeError] (whose text, never read by the program, names the type). *)
Definition contains (key : string) (json_data : json) : exn + bool :=
  match json_data with
  | JObj fields => inr (bool_decide (is_Some (fields !! key)))
  | JArr items => inr (existsb (eq_str key) items)
  | JStr s => inr (str_contains key s)
  | JNull => inl (TypeError "argument of type 'NoneType' is not iterable")
  | JBool _ => inl (TypeError "argument of type 'bool' is not iterable")
  | JNum _ => inl (TypeError "argument of type 'int' is not iterable")
  end.

(** [all(p(x) for x in xs)]: stops at the first false, raises where [p]
    does. *)
Fixpoint py_all {A} (p : A → exn + bool) (xs : list A) : exn + bool :=
  match xs with
  | [] => inr true
  | x :: xs' =>
      match p x with
      | inl e => inl e
      | inr true => py_all p xs'
      | inr false => inr false
      end
  end.

(** [[x for x in xs if not p(x)]] *)
Fixpoint py_filter_not {A} (p : A → exn + bool) (xs : list A)
  : exn + list A :=
  match xs with
  | [] => inr []
  | x :: xs' =>
      match p x with
      | inl e => inl e
      | inr b =>
          match py_filter_not p xs' with
          | inl e => inl e
          | inr kept => inr (if b then kept else x :: kept)
          end
      end
  end.

(** Truth value of [expected_keys], which is [None] or a list. *)
Definition truthy (expected_keys : option (list string)) : bool :=
  match expected_keys with
  | None | Some [] => false
  | Some (_ :: _) => true
  end.

(** The list that a [for key in expected_keys] walks once the value is
    known to be truthy. *)
Definition keys_of (expected_keys : option (list string)) : list string :=
  default [] expected_keys.

(** ** The checks on a response *)

(** [response.json()] *)
Definition response_json (r : response) : exn + json :=
  match body r with
  | inr j => inr j
  | inl e => inl e
  end.

(** [content_check] and [missing_keys] as the code leaves them after the
    [if expected_keys and ...] block: the defaults when the block is skipped,
    the two comprehensions over the parsed body when it runs. *)
Definition content_checks (expected_keys : option (list string))
    (response : response) : exn + (bool * list string) :=
  if truthy expected_keys &&
     bool_decide (headers_get "Content-Type" (headers response)
                  = Some "application/json")
  then
    json_data ←? response_json response;
    content_check ←?
      py_all (λ key, contains key json_data) (keys_of expected_keys);
    missing_keys ←?
      py_filter_not (λ key, contains key json_data) (keys_of expected_keys);
    inr (content_check, missing_keys)
  else inr (true, []).

(** The dictionary built on the error path. *)
Definition error_result (endpoint method : string) (e : exn)
  : gmap string pyval :=
  <["result" := VStr "ERROR"]>
  (<["error" := VStr (str e)]>
  (<["method" := VStr method]>
  (<["endpoint" := VStr endpoint]> ∅))).

(** The dictionary built after the checks, before the verdict is added. *)
Definition checked_result (endpoint method : string) (status : Z)
    (expected_status : Z) (status_check content_check : bool)
    (missing_keys : list string) : gmap string pyval :=
  <["missing_keys" := VList missing_keys]>
  (<["content_check" := VBool content_check]>
  (<["status_check" := VBool status_check]>
  (<["expected_status" := VInt expected_status]>
  (<["status" := VInt status]>
  (<["method" := VStr method]>
  (<["endpoint" := VStr endpoint]> ∅)))))).

(** ** The validator *)

Section Validator.

Context {St : Type}.
(** The server: its answer to a request in a state, and its next state. *)
Variable serve : St → request → outcome * St.
(** [self.base_url] *)
Variable base_url : string.

(** One call of the HTTP client: the request is logged, the server moves,
    and a failed transport is raised as a [RequestException]. *)
Definition send (req : request) : M St response :=
  λ w,
    let '(o, s') := serve (server w) req in
    let w' := World s' (sent w ++ [req]) in
    match o with
    | Responded r => (inr r, w')
    | Failed msg => (inl (RequestException msg), w')
    end.

Definition requests_get (url : string) : M St response :=
  send (Request "GET" url None).
Definition requests_post (url : string) (payload : option json)
  : M St response :=
  send (Request "POST" url payload).
Definition requests_put (url : string) (payload : option json)
  : M St response :=
  send (Request "PUT" url payload).
Definition requests_delete (url : string) : M St response :=
  send (Request "DELETE" url None).

(** The [if]/[elif] chain on [method]: one call of the client, or
    [ValueError] before any call. *)
Definition dispatch (method url : string) (payload : option json)
  : M St response :=
  if bool_decide (method = "GET") then requests_get url
  else if bool_decide (method = "POST") then requests_post url payload
  else if bool_decide (method = "PUT") then requests_put url payload
  else if bool_decide (method = "DELETE") then requests_delete url
  else raise (ValueError "Unsupported HTTP method").

(** The body of the [try] block. *)
Definition test_endpoint_body (endpoint : string) (expected_status : Z)
    (expected_keys : option (list string)) (method : string)
    (payload : option json) : M St (gmap string pyval) :=
  let url := base_url +:+ endpoint in
  response ←! dispatch method url payload;
  let status_check := bool_decide (status_code response = expected_status) in
  '(content_check, missing_keys) ←!
    lift (content_checks expected_keys response);
  let result :=
    checked_result endpoint method (status_code response) expected_status
      status_check content_check missing_keys in
  if status_check && content_check
  then ret (<["result" := VStr "PASS"]> result)
  else ret (<["result" := VStr "FAIL"]> result).

Definition test_endpoint (endpoint : string) (expected_status : Z)
    (expected_keys : option (list string)) (method : string)
    (payload : option json) : M St (gmap string pyval) :=
  try_except
    (test_endpoint_body endpoint expected_status expected_keys method payload)
    isinstance_RequestException
    (λ e, ret (error_result endpoint method e)).

(** An endpoint descriptor: the dictionary that [run_tests] reads, with
    [None] for a key that is left out. *)
Record EndpointSpec : Type := Endpoint {
  ep_endpoint : string;
  ep_expected_status : option Z;
  ep_expected_keys : option (list string);
  ep_method : option string;
  ep_payload : option json
}.

(** The call that [run_tests] makes for one descriptor, with the defaults of
    its [ep.get]. *)
Definition test_spec (ep : EndpointSpec) : M St (gmap string pyval) :=
  test_endpoint (ep_endpoint ep)
    (default 200 (ep_expected_status ep))
    (Some (default [] (ep_expected_keys ep)))
    (default "GET" (ep_method ep))
    (ep_payload ep).

(** The loop of [run_tests], [results] being the list built so far. *)
Fixpoint run_tests_from (results : list (gmap string pyval))
    (endpoints : list EndpointSpec) : M St (list (gmap string pyval)) :=
  match endpoints with
  | [] => ret results
  | ep :: rest =>
      result ←! test_spec ep;
      run_tests_from (results ++ [result]) rest
  end.

(** [run_tests], up to the end of its loop: the value is the list [results]
    that the summary is then printed from. *)
Definition run_tests (endpoints : list EndpointSpec)
  : M St (list (gmap string pyval)) :=
  run_tests_from [] endpoints.

End Validator.

(** ** A scripted server

    A server with a fixed script, used to run the validator on concrete
    inputs.  Its state counts the requests served; its answer depends on the
    request only. *)
Module Mock.

Definition base_url : string := "http://mock".

Definition json_headers : gmap string string :=
  {[ "content-type" := "application/json" ]}.

Definition charset_headers : gmap string string :=
  {[ "content-type" := "application/json; charset=utf-8" ]}.

Definition html_headers : gmap string string :=
  {[ "content-type" := "text/html" ]}.

Definition user : json :=
  JObj (list_to_map
    [("id", JNum "1"); ("name", JStr "Ann"); ("username", JStr "ann");
     ("email", JStr "ann@example.org"); ("extra", JBool true)]).

Definition comment : json :=
  JObj (list_to_map
    [("id", JNum "7"); ("name", JStr "re"); ("email", JStr "bob@example.org");
     ("body", JStr "hello")]).

Definition answer (req : request) : outcome :=
  let url := req_url req in
  if bool_decide (url = "http://mock/users") then
    Responded (Response 200 json_headers (inr user))
  else if bool_decide (url = "http://mock/posts") then
    Responded (Response 404 html_headers (inl (JSONDecodeError "Expecting value")))
  else if bool_decide (url = "http://mock/comments") then
    Responded (Response 200 json_headers (inr comment))
  else if bool_decide (url = "http://mock/broken") then
    Responded (Response 404 json_headers (inl (JSONDecodeError "Expecting value")))
  else if bool_decide (url = "http://mock/charset") then
    Responded (Response 200 charset_headers (inr (JObj ∅)))
  else if bool_decide (url = "http://mock/names") then
    Responded (Response 200 json_headers
                 (inr (JArr [JStr "id"; JStr "name"; JNum "3"])))
  else Failed "Connection refused".

Definition serve (served : nat) (req : request) : outcome * nat :=
  (answer req, S served).

(** The same server with one more path, whose JSON body is a number. *)
Definition serve_count (served : nat) (req : request) : outcome * nat :=
  if bool_decide (req_url req = "http://mock/count") then
    (Responded (Response 200 json_headers (inr (JNum "42"))), S served)
  else serve served req.

(** The same server with one more path, whose JSON body is a string. *)
Definition serve_text (served : nat) (req : request) : outcome * nat :=
  if bool_decide (req_url req = "http://mock/text") then
    (Responded (Response 200 json_headers (inr (JStr "valid name"))), S served)
  else serve served req.


(** The same server with one more path, which announces JSON with a charset
    and sends a body that is not JSON. *)
Definition serve_garbled (served : nat) (req : request) : outcome * nat :=
  if bool_decide (req_url req = "http://mock/garbled") then
    (Responded (Response 200 charset_headers
                  (inl (JSONDecodeError "Expecting value"))), S served)
  else serve served req.

Definition start : world nat := World 0%nat [].

(** Descriptors for the paths of the script. *)
Definition users : EndpointSpec :=
  Endpoint "/users" (Some 200) (Some ["id"; "name"; "username"; "email"])
    (Some "GET") None.
Definition posts : EndpointSpec :=
  Endpoint "/posts" (Some 200) (Some ["id"; "title"; "body"; "userId"])
    (Some "GET") None.
Definition comments : EndpointSpec :=
  Endpoint "/comments" (Some 200)
    (Some ["id"; "name"; "email"; "body"; "postId"]) (Some "GET") None.
Definition broken : EndpointSpec :=
  Endpoint "/broken" None (Some ["id"]) None None.
Definition charset : EndpointSpec :=
  Endpoint "/charset" None (Some ["id"]) None None.
Definition names : EndpointSpec :=
  Endpoint "/names" None (Some ["id"; "x"; "name"]) None None.
Definition count : EndpointSpec :=
  Endpoint "/count" None (Some ["id"]) None None.
Definition patch : EndpointSpec :=
  Endpoint "/users" None None (Some "PATCH") None.
Definition text : EndpointSpec :=
  Endpoint "/text" None (Some ["id"; "email"; "name"]) None None.
Definition unreachable : EndpointSpec :=
  Endpoint "/nowhere" None None (Some "POST") (Some (JObj ∅)).

(** [repr] on the strings of the script, which hold no quote, no backslash
    and no control character. *)
Definition quote (s : string) : string := "'" +:+ s +:+ "'".

(** The world after one request from [start]. *)
Definition after (req : request) : world nat := World 1%nat [req].

End Mock.

(** ** Vocabulary of the statements *)

(** The methods that [dispatch] knows. *)
Definition supported_methods : list string := ["GET"; "POST"; "PUT"; "DELETE"].

(** The method that [run_tests] passes for a descriptor. *)
Definition method_of (ep : EndpointSpec) : string := default "GET" (ep_method ep).

(** The test that the code makes on the header: the value of [Content-Type]
    is the string [application/json], nothing more and nothing less. *)
Definition declares_json (r : response) : Prop :=
  headers_get "Content-Type" (headers r) = Some "application/json".

(** The values on which [in] is defined. *)
Definition is_container (j : json) : bool :=
  match j with
  | JObj _ | JArr _ | JStr _ => true
  | JNull | JBool _ | JNum _ => false
  end.

(** The verdict added to a checked result. *)
Definition verdict_of (status_check content_check : bool) : string :=
  if status_check && content_check then "PASS" else "FAIL".

(** [key in j] on a container. *)
Definition member (key : string) (j : json) : bool :=
  match j with
  | JObj fields => bool_decide (is_Some (fields !! key))
  | JArr items => existsb (eq_str key) items
  | JStr s => str_contains key s
  | JNull | JBool _ | JNum _ => false
  end.

(** The verdict is added to the checked result by [result["result"] = ...]. *)
Definition final_result (endpoint method : string) (status expected_status : Z)
    (content_check : bool) (missing_keys : list string) : gmap string pyval :=
  let status_check := bool_decide (status = expected_status) in
  <["result" := VStr (verdict_of status_check content_check)]>
    (checked_result endpoint method status expected_status
       status_check content_check missing_keys).

(** [key in items] on a list. *)
Definition in_array (key : string) (items : list json) : bool :=
  existsb (eq_str key) items.

(** The reading that HTTP gives to "the content-type header indicates JSON":
    the media type of the value is [application/json], whether or not
    parameters such as a charset follow it.  The code does not use it; it is
    compared here with [declares_json], the test that the code makes. *)
Definition indicates_json (content_type : option string) : bool :=
  match content_type with
  | Some value =>
      bool_decide (value = "application/json")
      || String.prefix "application/json;" value
  | None => false
  end.

(** The request that a test with a supported method sends: the payload goes
    with POST and PUT only. *)
Definition carries_payload (method : string) : bool :=
  bool_decide (method = "POST") || bool_decide (method = "PUT").

Definition request_for (method url : string) (payload : option json)
  : request :=
  Request method url (if carries_payload method then payload else None).

Definition request_of (base_url : string) (ep : EndpointSpec) : request :=
  request_for (method_of ep) (base_url +:+ ep_endpoint ep) (ep_payload ep).




(** ** The summary

    The second half of [run_tests] prints the results.  A printing step
    either returns or raises [KeyError] on a subscript, and leaves the lines
    that it has printed. *)

Inductive report_error : Type :=
  | KeyError (key : string).

Definition Out (A : Type) : Type := (report_error + A) * list string.

Definition out_ret {A} (a : A) : Out A := (inr a, []).

Definition out_bind {A B} (c : Out A) (k : A → Out B) : Out B :=
  match c with
  | (inl e, lines) => (inl e, lines)
  | (inr a, lines) => let '(b, more) := k a in (b, lines ++ more)
  end.

Notation "x ←> c ; k" := (out_bind c (λ x, k))
  (at level 20, c at level 100, k at level 200, only parsing).

(** [print(line)] *)
Definition print (line : string) : Out unit := (inr tt, [line]).

(** [result[key]] *)
Definition subscript (result : gmap string pyval) (key : string) : Out pyval :=
  match result !! key with
  | Some v => (inr v, [])
  | None => (inl (KeyError key), [])
  end.

(** The truth value of a stored value in an [if]. *)
Definition truth (v : pyval) : bool :=
  match v with
  | VStr s => negb (bool_decide (s = ""))
  | VInt n => negb (bool_decide (n = 0))
  | VBool b => b
  | VList l => negb (bool_decide (l = []))
  end.

(** [v == "literal"]: only an equal [str] is equal to a [str]. *)
Definition eq_literal (v : pyval) (literal : string) : bool :=
  match v with
  | VStr s => bool_decide (s = literal)
  | VInt _ | VBool _ | VList _ => false
  end.

(** [sep.join(parts)] *)
Fixpoint join (sep : string) (parts : list string) : string :=
  match parts with
  | [] => ""
  | [part] => part
  | part :: rest => part +:+ sep +:+ join sep rest
  end.

(** The line break inside the first line of the summary. *)
Definition newline : string := String (Ascii.ascii_of_nat 10) "".

Definition pass_or_fail (b : bool) : string := if b then "Pass" else "Fail".

Section Summary.

(** [repr] on a [str], which belongs to Python and not to the program. *)
Variable repr : string → string.

(** [repr] of a list of [str]. *)
Definition repr_list (l : list string) : string :=
  "[" +:+ join ", " (map repr l) +:+ "]".

(** A stored value inside an f-string. *)
Definition format (v : pyval) : string :=
  match v with
  | VStr s => s
  | VInt n => pretty n
  | VBool true => "True"
  | VBool false => "False"
  | VList l => repr_list l
  end.

(** The body of the [for result in results] loop of the summary. *)
Definition print_result (result : gmap string pyval) : Out unit :=
  endpoint ←> subscript result "endpoint";
  method ←> subscript result "method";
  verdict ←> subscript result "result";
  _ ←> print ("Endpoint: " +:+ format endpoint +:+ ", Method: "
              +:+ format method +:+ ", Result: " +:+ format verdict);
  verdict ←> subscript result "result";
  if eq_literal verdict "FAIL" then
    status_check ←> subscript result "status_check";
    _ ←> print (" - Status Check: " +:+ pass_or_fail (truth status_check));
    content_check ←> subscript result "content_check";
    _ ←> print (" - Content Check: " +:+ pass_or_fail (truth content_check));
    missing_keys ←> subscript result "missing_keys";
    if truth missing_keys then
      missing_keys ←> subscript result "missing_keys";
      print (" - Missing Keys: " +:+ format missing_keys)
    else out_ret tt
  else
    verdict ←> subscript result "result";
    if eq_literal verdict "ERROR" then
      error ←> subscript result "error";
      print (" - Error: " +:+ format error)
    else out_ret tt.

Fixpoint print_results (results : list (gmap string pyval)) : Out unit :=
  match results with
  | [] => out_ret tt
  | result :: rest =>
      _ ←> print_result result;
      print_results rest
  end.

(** The summary, from [print("\nTest Summary:")] to the end of
    [run_tests]. *)
Definition print_summary (results : list (gmap string pyval)) : Out unit :=
  _ ←> print (newline +:+ "Test Summary:");
  print_results results.

(** What can end [run_tests] early. *)
Inductive uncaught : Type :=
  | InLoop (e : exn)
  | InSummary (e : report_error).

(** The whole of [run_tests]: the loop, then the summary.  The value is the
    exception that ended it, if any, the lines printed, and the world left. *)
Definition run_tests_report {St : Type}
    (serve : St → request → outcome * St) (base_url : string)
    (endpoints : list EndpointSpec) (w : world St)
  : option uncaught * list string * world St :=
  match run_tests serve base_url endpoints w with
  | (inl e, w') => (Some (InLoop e), [], w')
  | (inr results, w') =>
      match print_summary results with
      | (inl e, lines) => (Some (InSummary e), lines, w')
      | (inr _, lines) => (None, lines, w')
      end
  end.

End Summary.

(** The first line printed for a result. *)
Definition headline (endpoint method verdict : string) : string :=
  "Endpoint: " +:+ endpoint +:+ ", Method: " +:+ method
  +:+ ", Result: " +:+ verdict.

(** The lines that follow the first line of a checked result. *)
Definition checked_details (repr : string → string)
    (status_check content_check : bool) (missing_keys : list string)
  : list string :=
  if status_check && content_check then []
  else [" - Status Check: " +:+ pass_or_fail status_check;
        " - Content Check: " +:+ pass_or_fail content_check]
       ++ match missing_keys with
          | [] => []
          | _ :: _ => [" - Missing Keys: " +:+ repr_list repr missing_keys]
          end.

(** ** The comprehensions and the content check *)

Section Comprehensions.

Context {A : Type}.
Variable p : A → exn + bool.
Variable q : A → bool.
Hypothesis p_returns : ∀ x, p x = inr (q x).

Lemma py_all_returns (xs : list A) : py_all p xs = inr (forallb q xs).
Proof.
  induction xs as [|x xs IH]; simpl; [reflexivity|].
  rewrite p_returns. destruct (q x); [exact IH | reflexivity].
Qed.

Lemma py_filter_not_returns (xs : list A) :
  py_filter_not p xs = inr (filter (λ x, q x = false) xs).
Proof.
  induction xs as [|x xs IH]; simpl; [reflexivity|].
  rewrite p_returns, IH, filter_cons.
  destruct (q x); case_decide; done.
Qed.

End Comprehensions.

Lemma py_all_raises {A} (p : A → exn + bool) (e : exn) (x : A) (xs : list A) :
  p x = inl e → py_all p (x :: xs) = inl e.
Proof. intros Hp. simpl. by rewrite Hp. Qed.

Lemma contains_container (key : string) (j : json) :
  is_container j = true → contains key j = inr (member key j).
Proof. by destruct j. Qed.

Lemma contains_scalar (key : string) (j : json) :
  is_container j = false → ∃ msg, contains key j = inl (TypeError msg).
Proof. destruct j; intros; try done; simpl; eauto. Qed.

Lemma truthy_keys_of (expected_keys : option (list string)) :
  truthy expected_keys = true ↔ keys_of expected_keys ≠ [].
Proof. destruct expected_keys as [[|k ks]|]; simpl; split; done. Qed.

Lemma content_checks_skipped (expected_keys : option (list string))
    (r : response) :
  keys_of expected_keys = [] ∨ ¬ declares_json r →
  content_checks expected_keys r = inr (true, []).
Proof.
  intros H. unfold content_checks.
  destruct (truthy expected_keys) eqn:Ht; [|reflexivity].
  apply truthy_keys_of in Ht.
  destruct H as [H|H]; [done|]. by rewrite bool_decide_false.
Qed.

Lemma content_checks_run (expected_keys : option (list string))
    (r : response) :
  keys_of expected_keys ≠ [] → declares_json r →
  content_checks expected_keys r
  = (json_data ←? response_json r;
     content_check ←?
       py_all (λ key, contains key json_data) (keys_of expected_keys);
     missing_keys ←?
       py_filter_not (λ key, contains key json_data) (keys_of expected_keys);
     inr (content_check, missing_keys)).
Proof.
  intros Hk Hj. unfold content_checks.
  apply truthy_keys_of in Hk. rewrite Hk.
  by rewrite bool_decide_true.
Qed.

Lemma content_checks_container (expected_keys : option (list string))
    (r : response) (j : json) :
  keys_of expected_keys ≠ [] → declares_json r →
  body r = inr j → is_container j = true →
  content_checks expected_keys r
  = inr (forallb (λ key, member key j) (keys_of expected_keys),
         filter (λ key, member key j = false) (keys_of expected_keys)).
Proof.
  intros Hk Hj Hb Hc. rewrite content_checks_run by done.
  unfold response_json. rewrite Hb. simpl.
  rewrite (py_all_returns _ (λ key, member key j))
    by (intros; by apply contains_container).
  simpl.
  rewrite (py_filter_not_returns _ (λ key, member key j))
    by (intros; by apply contains_container).
  reflexivity.
Qed.

Lemma content_checks_unparsed (expected_keys : option (list string))
    (r : response) (e : exn) :
  keys_of expected_keys ≠ [] → declares_json r → body r = inl e →
  content_checks expected_keys r = inl e.
Proof.
  intros Hk Hj Hb. rewrite content_checks_run by done.
  unfold response_json. by rewrite Hb.
Qed.

Lemma content_checks_scalar (expected_keys : option (list string))
    (r : response) (j : json) :
  keys_of expected_keys ≠ [] → declares_json r →
  body r = inr j → is_container j = false →
  ∃ msg, content_checks expected_keys r = inl (TypeError msg).
Proof.
  intros Hk Hj Hb Hc. rewrite content_checks_run by done.
  unfold response_json. rewrite Hb. simpl.
  destruct (keys_of expected_keys) as [|k ks]; [done|].
  destruct (contains_scalar k j Hc) as [msg Hmsg].
  exists msg.
  by rewrite (py_all_raises (λ key, contains key j) (TypeError msg) k ks Hmsg).
Qed.

Lemma filter_always_present (keys : list string) :
  filter (λ _ : string, true = false) keys = [].
Proof.
  induction keys as [|k keys IH]; [done|].
  rewrite filter_cons. by case_decide.
Qed.

(** Whenever the check returns, its two results come from one test on the
    keys. *)
Lemma content_checks_returns (expected_keys : option (list string))
    (r : response) (content_check : bool) (missing_keys : list string) :
  content_checks expected_keys r = inr (content_check, missing_keys) →
  ∃ present : string → bool,
    content_check = forallb present (keys_of expected_keys)
    ∧ missing_keys = filter (λ key, present key = false) (keys_of expected_keys).
Proof.
  intros H.
  destruct (decide (keys_of expected_keys = [])) as [Hk|Hk].
  { rewrite content_checks_skipped in H by auto. injection H as <- <-.
    exists (λ _, true). by rewrite Hk. }
  destruct (decide (declares_json r)) as [Hj|Hj].
  2:{ rewrite content_checks_skipped in H by auto. injection H as <- <-.
      exists (λ _, true). split.
      - symmetry. by apply forallb_forall.
      - symmetry. apply filter_always_present. }
  destruct (body r) as [e|j] eqn:Hb.
  { by rewrite (content_checks_unparsed _ _ e) in H. }
  destruct (is_container j) eqn:Hc.
  - rewrite (content_checks_container _ _ j) in H by done.
    injection H as <- <-. by exists (λ key, member key j).
  - destruct (content_checks_scalar _ _ j Hk Hj Hb Hc) as [msg Hmsg].
    by rewrite Hmsg in H.
Qed.

(** ** The two shapes of a result *)

Lemma error_result_dom (endpoint method : string) (e : exn) :
  dom (error_result endpoint method e)
  = ({[ "endpoint"; "method"; "error"; "result" ]} : gset string).
Proof.
  unfold error_result. rewrite !dom_insert_L, dom_empty_L. set_solver.
Qed.

Lemma error_result_verdict (endpoint method : string) (e : exn) :
  error_result endpoint method e !! "result" = Some (VStr "ERROR").
Proof. reflexivity. Qed.

Lemma error_result_error (endpoint method : string) (e : exn) :
  error_result endpoint method e !! "error" = Some (VStr (str e)).
Proof. reflexivity. Qed.

Lemma final_result_verdict (endpoint method : string) (status expected : Z)
    (content_check : bool) (missing_keys : list string) :
  final_result endpoint method status expected content_check missing_keys
    !! "result"
  = Some (VStr (verdict_of (bool_decide (status = expected)) content_check)).
Proof. reflexivity. Qed.

Lemma final_result_status_check (endpoint method : string)
    (status expected : Z) (content_check : bool) (missing_keys : list string) :
  final_result endpoint method status expected content_check missing_keys
    !! "status_check"
  = Some (VBool (bool_decide (status = expected))).
Proof. reflexivity. Qed.

Lemma final_result_content_check (endpoint method : string)
    (status expected : Z) (content_check : bool) (missing_keys : list string) :
  final_result endpoint method status expected content_check missing_keys
    !! "content_check"
  = Some (VBool content_check).
Proof. reflexivity. Qed.

Lemma final_result_missing_keys (endpoint method : string)
    (status expected : Z) (content_check : bool) (missing_keys : list string) :
  final_result endpoint method status expected content_check missing_keys
    !! "missing_keys"
  = Some (VList missing_keys).
Proof. reflexivity. Qed.

Lemma error_result_no_missing_keys (endpoint method : string) (e : exn) :
  error_result endpoint method e !! "missing_keys" = None.
Proof. reflexivity. Qed.

Lemma verdict_of_not_error (status_check content_check : bool) :
  verdict_of status_check content_check ≠ "ERROR".
Proof. unfold verdict_of. by destruct (_ && _). Qed.

(** ** Stepping through the code *)

Section Steps.

Context {St : Type}.
Variable serve : St → request → outcome * St.
Variable base_url : string.

Lemma dispatch_unsupported (method url : string) (payload : option json)
    (w : world St) :
  method ∉ supported_methods →
  dispatch serve method url payload w
  = (inl (ValueError "Unsupported HTTP method"), w).
Proof.
  unfold supported_methods. rewrite !not_elem_of_cons.
  intros (? & ? & ? & ? & _). unfold dispatch.
  by rewrite !bool_decide_false.
Qed.

Lemma dispatch_supported (method url : string) (payload : option json) :
  method ∈ supported_methods →
  ∃ req, req_url req = url ∧ req_method req = method
         ∧ dispatch serve method url payload = send serve req.
Proof.
  unfold supported_methods. rewrite !elem_of_cons, elem_of_nil.
  intros [->|[->|[->|[->|[]]]]].
  - by exists (Request "GET" url None).
  - by exists (Request "POST" url payload).
  - by exists (Request "PUT" url payload).
  - by exists (Request "DELETE" url None).
Qed.

Lemma send_unfold (req : request) (w : world St) :
  send serve req w
  = (match (serve (server w) req).1 with
     | Responded r => inr r
     | Failed msg => inl (RequestException msg)
     end,
     World (serve (server w) req).2 (sent w ++ [req])).
Proof.
  unfold send. destruct (serve (server w) req) as [[r|msg] s']; reflexivity.
Qed.

(** What leaves [dispatch] is a response, a [RequestException] of the
    transport, or the [ValueError] of an unsupported method. *)
Lemma dispatch_raises (method url : string) (payload : option json)
    (w w1 : world St) (e : exn) :
  dispatch serve method url payload w = (inl e, w1) →
  (∃ msg, e = RequestException msg)
  ∨ (e = ValueError "Unsupported HTTP method" ∧ w1 = w
     ∧ method ∉ supported_methods).
Proof.
  destruct (decide (method ∈ supported_methods)) as [Hm|Hm].
  - destruct (dispatch_supported method url payload Hm) as (req & _ & _ & ->).
    rewrite send_unfold.
    destruct (serve (server w) req).1; intros [= <- <-]; eauto.
  - rewrite dispatch_unsupported by done. intros [= <- <-]. auto.
Qed.

(** [test_endpoint], path by path. *)
Lemma test_endpoint_unfold (endpoint : string) (expected_status : Z)
    (expected_keys : option (list string)) (method : string)
    (payload : option json) (w : world St) :
  test_endpoint serve base_url endpoint expected_status expected_keys
    method payload w
  = match dispatch serve method (base_url +:+ endpoint) payload w with
    | (inl e, w1) =>
        if isinstance_RequestException e
        then (inr (error_result endpoint method e), w1)
        else (inl e, w1)
    | (inr response, w1) =>
        match content_checks expected_keys response with
        | inl e =>
            if isinstance_RequestException e
            then (inr (error_result endpoint method e), w1)
            else (inl e, w1)
        | inr (content_check, missing_keys) =>
            (inr (final_result endpoint method (status_code response)
                    expected_status content_check missing_keys), w1)
        end
    end.
Proof.
  unfold test_endpoint, try_except, test_endpoint_body, bind, lift.
  destruct (dispatch _ _ _ _ _) as [[e|response] w1]; [reflexivity|].
  destruct (content_checks _ _) as [e|[content_check missing_keys]];
    [reflexivity|].
  unfold final_result, verdict_of.
  destruct (_ && _); reflexivity.
Qed.

(** A result of [test_endpoint] is an error record or a checked record. *)
Lemma test_endpoint_returns (endpoint : string) (expected_status : Z)
    (expected_keys : option (list string)) (method : string)
    (payload : option json) (w w' : world St) (r : gmap string pyval) :
  test_endpoint serve base_url endpoint expected_status expected_keys
    method payload w = (inr r, w') →
  (∃ e, isinstance_RequestException e = true
        ∧ r = error_result endpoint method e)
  ∨ (∃ response w0 content_check missing_keys,
        dispatch serve method (base_url +:+ endpoint) payload w0
          = (inr response, w')
        ∧ content_checks expected_keys response
          = inr (content_check, missing_keys)
        ∧ r = final_result endpoint method (status_code response)
                expected_status content_check missing_keys).
Proof.
  rewrite test_endpoint_unfold.
  destruct (dispatch _ _ _ _ _) as [[e|response] w1] eqn:Hd.
  - destruct (isinstance_RequestException e) eqn:He; [|done].
    intros [= <- <-]. left. eauto.
  - destruct (content_checks _ _) as [e|[content_check missing_keys]] eqn:Hc.
    + destruct (isinstance_RequestException e) eqn:He; [|done].
      intros [= <- <-]. left. eauto.
    + intros [= <- <-]. right. eauto 10.
Qed.


Lemma dispatch_request (method url : string) (payload : option json) :
  method ∈ supported_methods →
  dispatch serve method url payload
  = send serve (request_for method url payload).
Proof.
  unfold supported_methods. rewrite !elem_of_cons, elem_of_nil.
  intros [->|[->|[->|[->|[]]]]]; reflexivity.
Qed.


(** *** The loop *)

Lemma run_tests_from_acc (acc : list (gmap string pyval))
    (endpoints : list EndpointSpec) (w : world St) :
  run_tests_from serve base_url acc endpoints w
  = match run_tests serve base_url endpoints w with
    | (inr results, w') => (inr (acc ++ results), w')
    | (inl e, w') => (inl e, w')
    end.
Proof.
  unfold run_tests. revert acc w.
  induction endpoints as [|ep rest IH]; intros acc w; simpl.
  - unfold ret. by rewrite app_nil_r.
  - unfold bind. destruct (test_spec serve base_url ep w) as [[e|r] w1];
      [reflexivity|].
    rewrite (IH (acc ++ [r])), (IH ([] ++ [r])).
    destruct (run_tests_from serve base_url [] rest w1) as [[e|rs] w2];
      [reflexivity|].
    by rewrite <- app_assoc.
Qed.

Lemma run_tests_cons (ep : EndpointSpec) (rest : list EndpointSpec)
    (w : world St) :
  run_tests serve base_url (ep :: rest) w
  = match test_spec serve base_url ep w with
    | (inl e, w1) => (inl e, w1)
    | (inr r, w1) =>
        match run_tests serve base_url rest w1 with
        | (inr results, w2) => (inr (r :: results), w2)
        | (inl e, w2) => (inl e, w2)
        end
    end.
Proof.
  unfold run_tests at 1. simpl. unfold bind.
  destruct (test_spec serve base_url ep w) as [[e|r] w1]; [reflexivity|].
  apply run_tests_from_acc.
Qed.

Lemma run_tests_app (before after : list EndpointSpec) (w : world St) :
  run_tests serve base_url (before ++ after) w
  = match run_tests serve base_url before w with
    | (inl e, w1) => (inl e, w1)
    | (inr done, w1) =>
        match run_tests serve base_url after w1 with
        | (inr results, w2) => (inr (done ++ results), w2)
        | (inl e, w2) => (inl e, w2)
        end
    end.
Proof.
  revert w. induction before as [|ep before IH]; intros w.
  - simpl. change (run_tests serve base_url [] w) with (inr [] : exn + list (gmap string pyval), w).
    destruct (run_tests serve base_url after w) as [[e|rs] w2]; reflexivity.
  - simpl. rewrite !run_tests_cons.
    destruct (test_spec serve base_url ep w) as [[e|r] w1]; [reflexivity|].
    rewrite IH.
    destruct (run_tests serve base_url before w1) as [[e|rs] w2];
      [reflexivity|].
    by destruct (run_tests serve base_url after w2) as [[e|rs'] w3].
Qed.

End Steps.

(** ** Properties of the validator *)

Lemma eq_str_true (key : string) (item : json) :
  eq_str key item = true ↔ item = JStr key.
Proof.
  destruct item; simpl; try (split; done).
  rewrite bool_decide_eq_true. split; congruence.
Qed.

Lemma in_array_elem_of (key : string) (items : list json) :
  in_array key items = true ↔ JStr key ∈ items.
Proof.
  unfold in_array. rewrite existsb_exists. split.
  - intros (item & Hin & Heq). apply eq_str_true in Heq as ->.
    by apply list_elem_of_In.
  - intros Hin. exists (JStr key). split; [by apply list_elem_of_In|].
    by apply eq_str_true.
Qed.

#[global] Instance str_elem_of_array_dec (key : string) (items : list json) :
  Decision (JStr key ∈ items).
Proof.
  refine (cast_if (decide (in_array key items = true)));
    by rewrite <- in_array_elem_of.
Defined.

Lemma forallb_true_elem_of {A} (f : A → bool) (xs : list A) :
  forallb f xs = true ↔ ∀ x, x ∈ xs → f x = true.
Proof.
  rewrite forallb_forall. by setoid_rewrite list_elem_of_In.
Qed.

Section Claims.

Context {St : Type}.
Variable serve : St → request → outcome * St.
Variable base_url : string.

(** C1, as the code has it.  For an endpoint descriptor whose method is not
    one of GET, POST, PUT, DELETE, the test raises [ValueError] and leaves the
    world as it was: no request is sent and no result is built.  The handler
    of [test_endpoint] does not catch it, so [run_tests], having tested the
    descriptors before it, ends with that exception and tests none of the
    descriptors after it. *)
Theorem unsupported_method_raises (ep : EndpointSpec)
    (before rest : list EndpointSpec) (w0 w : world St)
    (done : list (gmap string pyval)) :
  method_of ep ∉ supported_methods →
  run_tests serve base_url before w0 = (inr done, w) →
  test_spec serve base_url ep w
    = (inl (ValueError "Unsupported HTTP method"), w)
  ∧ run_tests serve base_url (before ++ ep :: rest) w0
    = (inl (ValueError "Unsupported HTTP method"), w).
Proof.
  intros Hm Hbefore.
  assert (test_spec serve base_url ep w
          = (inl (ValueError "Unsupported HTTP method"), w)) as Hep.
  { unfold test_spec. rewrite test_endpoint_unfold.
    fold (method_of ep). by rewrite dispatch_unsupported. }
  split; [exact Hep|].
  by rewrite run_tests_app, Hbefore, run_tests_cons, Hep.
Qed.


(** The content check on an object, under the test that the code makes on
    the header.  For a response whose [Content-Type] header passes that test
    (its value is the string [application/json]), a non-empty list of
    expected keys and a body that parses to a JSON object, the content check is true iff every
    expected key is a top-level key of the object, and the missing keys are
    the expected keys that are not, in the order of the expected keys.  For a
    response whose [Content-Type] header is anything else or absent, and for
    an empty list of expected keys, the content check is true and no key is
    missing. *)
Theorem content_check_by_header (endpoint : string) (expected_status : Z)
    (expected_keys : option (list string)) (method : string)
    (payload : option json) (w w1 : world St) (response : response) :
  dispatch serve method (base_url +:+ endpoint) payload w
    = (inr response, w1) →
  (∀ fields,
     declares_json response → keys_of expected_keys ≠ [] →
     body response = inr (JObj fields) →
     ∃ r content_check,
       test_endpoint serve base_url endpoint expected_status expected_keys
         method payload w = (inr r, w1)
       ∧ r !! "content_check" = Some (VBool content_check)
       ∧ (content_check = true
          ↔ ∀ key, key ∈ keys_of expected_keys → key ∈ dom fields)
       ∧ r !! "missing_keys"
         = Some (VList (filter (λ key, key ∉ dom fields)
                          (keys_of expected_keys))))
  ∧ (¬ declares_json response ∨ keys_of expected_keys = [] →
     ∃ r,
       test_endpoint serve base_url endpoint expected_status expected_keys
         method payload w = (inr r, w1)
       ∧ r !! "content_check" = Some (VBool true)
       ∧ r !! "missing_keys" = Some (VList [])).
Proof.
  intros Hd. split.
  - intros fields Hj Hk Hb.
    rewrite test_endpoint_unfold, Hd,
      (content_checks_container _ _ (JObj fields)) by done.
    eexists _, _. split; [reflexivity|].
    rewrite final_result_content_check, final_result_missing_keys.
    split; [reflexivity|]. split.
    + rewrite forallb_true_elem_of. simpl.
      by setoid_rewrite bool_decide_eq_true; setoid_rewrite elem_of_dom.
    + do 2 f_equal. apply list_filter_iff. intros key. simpl.
      rewrite bool_decide_eq_false, <- elem_of_dom. done.
  - intros H. rewrite test_endpoint_unfold, Hd, content_checks_skipped
      by tauto.
    eexists. split; [reflexivity|]. done.
Qed.

(** A body that does not parse, under the test that the code makes on the
    header.  When the header passes that test, keys are expected and
    [response.json()] raises the decoding error, the test returns a result
    with verdict ERROR and the description of the error, without any of the
    check fields, and the loop goes on with the remaining descriptors from
    the world that this test left. *)
Theorem unparsable_json_is_error (ep : EndpointSpec) (w w1 : world St)
    (response : response) (msg : string) :
  dispatch serve (method_of ep) (base_url +:+ ep_endpoint ep) (ep_payload ep) w
    = (inr response, w1) →
  declares_json response →
  default [] (ep_expected_keys ep) ≠ [] →
  body response = inl (JSONDecodeError msg) →
  ∃ r,
    test_spec serve base_url ep w = (inr r, w1)
    ∧ r !! "result" = Some (VStr "ERROR")
    ∧ r !! "error" = Some (VStr msg)
    ∧ r !! "status_check" = None
    ∧ r !! "content_check" = None
    ∧ ∀ results rest,
        run_tests_from serve base_url results (ep :: rest) w
        = run_tests_from serve base_url (results ++ [r]) rest w1.
Proof.
  intros Hd Hj Hk Hb.
  exists (error_result (ep_endpoint ep) (method_of ep) (JSONDecodeError msg)).
  assert (test_spec serve base_url ep w
          = (inr (error_result (ep_endpoint ep) (method_of ep)
                    (JSONDecodeError msg)), w1)) as Hep.
  { unfold test_spec. rewrite test_endpoint_unfold. fold (method_of ep).
    by rewrite Hd, (content_checks_unparsed _ _ (JSONDecodeError msg)). }
  split; [exact Hep|]. repeat (split; [reflexivity|]).
  intros results rest. simpl. unfold bind. by rewrite Hep.
Qed.

Lemma run_tests_nil (w : world St) :
  run_tests serve base_url [] w = (inr [], w).
Proof. reflexivity. Qed.

Lemma run_tests_cons_world (ep : EndpointSpec) (rest : list EndpointSpec)
    (w w1 : world St) (r : gmap string pyval) :
  test_spec serve base_url ep w = (inr r, w1) →
  (run_tests serve base_url (ep :: rest) w).2
  = (run_tests serve base_url rest w1).2.
Proof.
  intros Hep. rewrite run_tests_cons, Hep.
  by destruct (run_tests serve base_url rest w1) as [[e|rs] w2].
Qed.


(** C6.  In every result of a test, the missing keys form a subsequence of
    the expected keys: they can be obtained from the expected keys by
    deleting elements, so each of them is an expected key and they stand in
    the order of the expected keys. *)
Theorem missing_keys_subsequence (endpoint : string) (expected_status : Z)
    (expected_keys : option (list string)) (method : string)
    (payload : option json) (w w' : world St) (r : gmap string pyval)
    (missing_keys : list string) :
  test_endpoint serve base_url endpoint expected_status expected_keys
    method payload w = (inr r, w') →
  r !! "missing_keys" = Some (VList missing_keys) →
  missing_keys `sublist_of` keys_of expected_keys
  ∧ ∀ key, key ∈ missing_keys → key ∈ keys_of expected_keys.
Proof.
  intros Hr Hmk.
  assert (missing_keys `sublist_of` keys_of expected_keys) as Hsub.
  { apply test_endpoint_returns in Hr
      as [(e & _ & ->)|(resp & w0 & cc & mk & _ & Hc & ->)].
    - by rewrite error_result_no_missing_keys in Hmk.
    - rewrite final_result_missing_keys in Hmk. injection Hmk as ->.
      apply content_checks_returns in Hc as (present & _ & ->).
      apply sublist_filter. }
  split; [exact Hsub|].
  intros key Hkey. by eapply elem_of_sublist.
Qed.

(** C7.  In every result of a test, if some key is missing then the content
    check is false and the list of expected keys is not empty. *)
Theorem missing_keys_fail_content_check (endpoint : string)
    (expected_status : Z) (expected_keys : option (list string))
    (method : string) (payload : option json) (w w' : world St)
    (r : gmap string pyval) (missing_keys : list string) :
  test_endpoint serve base_url endpoint expected_status expected_keys
    method payload w = (inr r, w') →
  r !! "missing_keys" = Some (VList missing_keys) →
  missing_keys ≠ [] →
  r !! "content_check" = Some (VBool false)
  ∧ keys_of expected_keys ≠ [].
Proof.
  intros Hr Hmk Hne.
  apply test_endpoint_returns in Hr
    as [(e & _ & ->)|(resp & w0 & cc & mk & _ & Hc & ->)].
  { by rewrite error_result_no_missing_keys in Hmk. }
  rewrite final_result_missing_keys in Hmk. injection Hmk as ->.
  rewrite final_result_content_check.
  apply content_checks_returns in Hc as (present & -> & ->).
  destruct (filter _ _) as [|key rest] eqn:Hfilter; [done|].
  assert (key ∈ filter (λ key, present key = false) (keys_of expected_keys))
    as Hkey by (rewrite Hfilter; left).
  apply list_elem_of_filter in Hkey as [Hmissing Hin].
  split.
  - do 2 f_equal. apply not_true_is_false. rewrite forallb_true_elem_of.
    intros Hall. specialize (Hall key Hin). congruence.
  - intros Hnil. rewrite Hnil in Hin. by apply elem_of_nil in Hin.
Qed.

(** *** A server whose answers depend on the request only *)

Section Deterministic.

Hypothesis answer_by_request :
  ∀ s s' req, (serve s req).1 = (serve s' req).1.

Lemma dispatch_deterministic (method url : string) (payload : option json)
    (w w' : world St) :
  (dispatch serve method url payload w).1
  = (dispatch serve method url payload w').1.
Proof.
  destruct (decide (method ∈ supported_methods)) as [Hm|Hm].
  - destruct (dispatch_supported serve method url payload Hm)
      as (req & _ & _ & ->).
    rewrite !send_unfold. simpl.
    by rewrite (answer_by_request (server w) (server w')).
  - by rewrite !dispatch_unsupported.
Qed.

Lemma test_endpoint_deterministic (endpoint : string) (expected_status : Z)
    (expected_keys : option (list string)) (method : string)
    (payload : option json) (w w' : world St) :
  (test_endpoint serve base_url endpoint expected_status expected_keys
     method payload w).1
  = (test_endpoint serve base_url endpoint expected_status expected_keys
       method payload w').1.
Proof.
  rewrite !test_endpoint_unfold.
  pose proof (dispatch_deterministic method (base_url +:+ endpoint) payload
                w w') as Hd.
  destruct (dispatch serve method (base_url +:+ endpoint) payload w)
    as [x w1], (dispatch serve method (base_url +:+ endpoint) payload w')
    as [x' w1'].
  simpl in Hd. subst x'.
  destruct x as [e|response].
  - by destruct (isinstance_RequestException e).
  - destruct (content_checks expected_keys response) as [e|[cc mk]]; [|done].
    by destruct (isinstance_RequestException e).
Qed.

Lemma run_tests_deterministic (endpoints : list EndpointSpec)
    (w w' : world St) :
  (run_tests serve base_url endpoints w).1
  = (run_tests serve base_url endpoints w').1.
Proof.
  revert w w'. induction endpoints as [|ep rest IH]; intros w w'.
  - reflexivity.
  - rewrite !run_tests_cons.
    pose proof (test_endpoint_deterministic (ep_endpoint ep)
                  (default 200 (ep_expected_status ep))
                  (Some (default [] (ep_expected_keys ep)))
                  (default "GET" (ep_method ep)) (ep_payload ep) w w') as Hep.
    fold (test_spec serve base_url ep w) in Hep.
    fold (test_spec serve base_url ep w') in Hep.
    destruct (test_spec serve base_url ep w) as [x w1],
      (test_spec serve base_url ep w') as [x' w1'].
    simpl in Hep. subst x'. destruct x as [e|r]; [reflexivity|].
    specialize (IH w1 w1').
    destruct (run_tests serve base_url rest w1) as [y w2],
      (run_tests serve base_url rest w1') as [y' w2'].
    simpl in IH. subst y'. by destruct y.
Qed.

End Deterministic.

(** C8.  If the answer of the server to a request is a function of the
    request, whatever the state of the server, then running [run_tests] a
    second time on the same list, in the world that the first run left,
    gives the same outcome as the first run: the same results in the same
    order. *)
Theorem run_tests_repeatable (endpoints : list EndpointSpec) (w : world St) :
  (∀ s s' req, (serve s req).1 = (serve s' req).1) →
  (run_tests serve base_url endpoints
     (run_tests serve base_url endpoints w).2).1
  = (run_tests serve base_url endpoints w).1.
Proof.
  intros Hdet. by apply run_tests_deterministic.
Qed.

(** C9.  A result with verdict ERROR has exactly the four fields [endpoint],
    [method], [error] and [result]; the fields of the checks are absent. *)
Theorem error_result_fields (endpoint : string) (expected_status : Z)
    (expected_keys : option (list string)) (method : string)
    (payload : option json) (w w' : world St) (r : gmap string pyval) :
  test_endpoint serve base_url endpoint expected_status expected_keys
    method payload w = (inr r, w') →
  r !! "result" = Some (VStr "ERROR") →
  dom r = ({[ "endpoint"; "method"; "error"; "result" ]} : gset string)
  ∧ r !! "status" = None
  ∧ r !! "expected_status" = None
  ∧ r !! "status_check" = None
  ∧ r !! "content_check" = None
  ∧ r !! "missing_keys" = None.
Proof.
  intros Hr Hv.
  apply test_endpoint_returns in Hr
    as [(e & _ & ->)|(resp & w0 & cc & mk & _ & _ & ->)].
  - split; [apply error_result_dom|]. done.
  - rewrite final_result_verdict in Hv. injection Hv as Hv.
    by apply verdict_of_not_error in Hv.
Qed.

(** C10.  For a response whose [Content-Type] header is exactly
    [application/json], a non-empty list of expected keys and a body that
    parses to a JSON array, the content check is true iff every expected key
    is equal to some element of the array, and the missing keys are the
    expected keys that are equal to no element. *)
Theorem content_check_on_array (endpoint : string) (expected_status : Z)
    (expected_keys : option (list string)) (method : string)
    (payload : option json) (w w1 : world St) (response : response)
    (items : list json) :
  dispatch serve method (base_url +:+ endpoint) payload w
    = (inr response, w1) →
  declares_json response →
  keys_of expected_keys ≠ [] →
  body response = inr (JArr items) →
  ∃ r content_check,
    test_endpoint serve base_url endpoint expected_status expected_keys
      method payload w = (inr r, w1)
    ∧ r !! "content_check" = Some (VBool content_check)
    ∧ (content_check = true
       ↔ ∀ key, key ∈ keys_of expected_keys → JStr key ∈ items)
    ∧ r !! "missing_keys"
      = Some (VList (filter (λ key, JStr key ∉ items)
                       (keys_of expected_keys))).
Proof.
  intros Hd Hj Hk Hb.
  rewrite test_endpoint_unfold, Hd,
    (content_checks_container _ _ (JArr items)) by done.
  eexists _, _. split; [reflexivity|].
  rewrite final_result_content_check, final_result_missing_keys.
  split; [reflexivity|]. split.
  - rewrite forallb_true_elem_of. simpl.
    by setoid_rewrite in_array_elem_of.
  - do 2 f_equal. apply list_filter_iff. intros key. simpl.
    fold (in_array key items).
    rewrite <- in_array_elem_of. by destruct (in_array key items).
Qed.

End Claims.

(** ** The validator on the scripted server *)

(** The scenarios of the specification. *)
Example users_pass :
  ∃ r w', test_spec Mock.serve Mock.base_url Mock.users Mock.start = (inr r, w')
          ∧ r !! "result" = Some (VStr "PASS")
          ∧ r !! "missing_keys" = Some (VList []).
Proof. eexists _, _. split; [vm_compute; reflexivity|]. split; reflexivity. Qed.

Example posts_fail :
  ∃ r w', test_spec Mock.serve Mock.base_url Mock.posts Mock.start = (inr r, w')
          ∧ r !! "result" = Some (VStr "FAIL")
          ∧ r !! "status_check" = Some (VBool false).
Proof. eexists _, _. split; [vm_compute; reflexivity|]. split; reflexivity. Qed.

Example comments_fail :
  ∃ r w',
    test_spec Mock.serve Mock.base_url Mock.comments Mock.start = (inr r, w')
    ∧ r !! "result" = Some (VStr "FAIL")
    ∧ r !! "missing_keys" = Some (VList ["postId"]).
Proof. eexists _, _. split; [vm_compute; reflexivity|]. split; reflexivity. Qed.

Example unreachable_error :
  ∃ r w',
    test_spec Mock.serve Mock.base_url Mock.unreachable Mock.start = (inr r, w')
    ∧ r !! "result" = Some (VStr "ERROR")
    ∧ r !! "error" = Some (VStr "Connection refused").
Proof. eexists _, _. split; [vm_compute; reflexivity|]. split; reflexivity. Qed.

Lemma patch_unsupported : method_of Mock.patch ∉ supported_methods.
Proof. apply (bool_decide_unpack _). vm_compute. exact I. Defined.

(** C1: a descriptor with method PATCH before a good one.  The run ends with
    the exception: it returns no list of results, so no ERROR is recorded,
    and it has sent no request, so the good descriptor was not tested. *)
Lemma unsupported_method_aborts_run :
  (method_of Mock.patch ∉ supported_methods)
  ∧ (run_tests Mock.serve Mock.base_url [Mock.patch; Mock.users] Mock.start
     = (inl (ValueError "Unsupported HTTP method"), Mock.start))
  ∧ (¬ ∃ results w',
         run_tests Mock.serve Mock.base_url [Mock.patch; Mock.users] Mock.start
         = (inr results, w')).
Proof.
  split; [|split].
  - exact patch_unsupported.
  - vm_compute. reflexivity.
  - intros (results & w' & H). vm_compute in H. discriminate H.
Qed.

Lemma unsupported_method_raises_witness :
  test_spec Mock.serve Mock.base_url Mock.patch
    (Mock.after (Request "GET" "http://mock/users" None))
  = (inl (ValueError "Unsupported HTTP method"),
     Mock.after (Request "GET" "http://mock/users" None))
  ∧ run_tests Mock.serve Mock.base_url
      ([Mock.users] ++ Mock.patch :: [Mock.comments]) Mock.start
    = (inl (ValueError "Unsupported HTTP method"),
       Mock.after (Request "GET" "http://mock/users" None)).
Proof.
  eapply (unsupported_method_raises Mock.serve Mock.base_url Mock.patch
            [Mock.users] [Mock.comments] Mock.start).
  - apply (bool_decide_unpack _). vm_compute. exact I.
  - vm_compute. reflexivity.
Defined.



(** C3: a response whose header is [application/json; charset=utf-8], which
    indicates JSON, with the empty object as its body.  The expected key is
    not a key of the object, yet the content check is true and no key is
    reported missing: the code compares the whole header value with
    [application/json] and skips the check. *)
Lemma json_with_charset_is_not_checked :
  ∃ response w1 r,
    dispatch Mock.serve "GET" (Mock.base_url +:+ "/charset") None Mock.start
      = (inr response, w1)
    ∧ indicates_json (headers_get "Content-Type" (headers response)) = true
    ∧ body response = inr (JObj ∅)
    ∧ ("id" ∉ dom (∅ : gmap string json))
    ∧ test_endpoint Mock.serve Mock.base_url "/charset" 200 (Some ["id"])
        "GET" None Mock.start = (inr r, w1)
    ∧ r !! "content_check" = Some (VBool true)
    ∧ r !! "missing_keys" = Some (VList []).
Proof.
  eexists _, _, _. split; [vm_compute; reflexivity|].
  split; [reflexivity|]. split; [reflexivity|].
  split; [by rewrite dom_empty_L; apply not_elem_of_empty|].
  split; [vm_compute; reflexivity|].
  split; reflexivity.
Qed.

Lemma content_check_by_header_witness :
  ∃ r content_check,
    test_endpoint Mock.serve Mock.base_url "/comments" 200
      (Some ["id"; "postId"]) "GET" None Mock.start
    = (inr r, Mock.after (Request "GET" "http://mock/comments" None))
    ∧ r !! "content_check" = Some (VBool content_check)
    ∧ (content_check = true
       ↔ ∀ key, key ∈ ["id"; "postId"] →
                key ∈ dom (list_to_map
                  [("id", JNum "7"); ("name", JStr "re");
                   ("email", JStr "bob@example.org"); ("body", JStr "hello")]
                  : gmap string json))
    ∧ r !! "missing_keys"
      = Some (VList (filter
                (λ key, key ∉ dom (list_to_map
                   [("id", JNum "7"); ("name", JStr "re");
                    ("email", JStr "bob@example.org"); ("body", JStr "hello")]
                   : gmap string json))
                ["id"; "postId"])).
Proof.
  refine (proj1 (content_check_by_header Mock.serve Mock.base_url "/comments"
                   200 (Some ["id"; "postId"]) "GET" None Mock.start
                   (Mock.after (Request "GET" "http://mock/comments" None))
                   (Response 200 Mock.json_headers (inr Mock.comment)) _)
            _ _ _ _).
  - vm_compute. reflexivity.
  - reflexivity.
  - simpl. discriminate.
  - reflexivity.
Defined.

(** On the scripted server, [/broken] passes the header test and does not
    parse. *)
Lemma unparsable_json_is_error_witness :
  ∃ r,
    test_spec Mock.serve Mock.base_url Mock.broken Mock.start
    = (inr r, Mock.after (Request "GET" "http://mock/broken" None))
    ∧ r !! "result" = Some (VStr "ERROR")
    ∧ r !! "error" = Some (VStr "Expecting value")
    ∧ r !! "status_check" = None
    ∧ r !! "content_check" = None
    ∧ ∀ results rest,
        run_tests_from Mock.serve Mock.base_url results (Mock.broken :: rest)
          Mock.start
        = run_tests_from Mock.serve Mock.base_url (results ++ [r]) rest
            (Mock.after (Request "GET" "http://mock/broken" None)).
Proof.
  apply (unparsable_json_is_error Mock.serve Mock.base_url Mock.broken
           Mock.start (Mock.after (Request "GET" "http://mock/broken" None))
           (Response 404 Mock.json_headers (inl (JSONDecodeError "Expecting value")))
           "Expecting value").
  - vm_compute. reflexivity.
  - reflexivity.
  - simpl. discriminate.
  - reflexivity.
Defined.

(** C4: a response that announces JSON as [application/json; charset=utf-8]
    and whose body is not JSON, tested for a non-empty list of keys.  The
    header does not pass the test of the code, the body is never read, and
    the test ends with verdict PASS and no error, where the claim asks for
    ERROR.  The comparison that misses this header is the one that C3
    meets. *)
Lemma json_with_charset_unparsable_is_not_error :
  ∃ response w1 r,
    dispatch Mock.serve_garbled "GET" (Mock.base_url +:+ "/garbled") None
      Mock.start = (inr response, w1)
    ∧ indicates_json (headers_get "Content-Type" (headers response)) = true
    ∧ body response = inl (JSONDecodeError "Expecting value")
    ∧ test_endpoint Mock.serve_garbled Mock.base_url "/garbled" 200
        (Some ["id"]) "GET" None Mock.start = (inr r, w1)
    ∧ r !! "result" = Some (VStr "PASS")
    ∧ r !! "result" ≠ Some (VStr "ERROR")
    ∧ r !! "error" = None.
Proof.
  eexists _, _, _. split; [vm_compute; reflexivity|].
  split; [reflexivity|]. split; [reflexivity|].
  split; [vm_compute; reflexivity|].
  split; [reflexivity|]. split; [discriminate|reflexivity].
Qed.





(** C6 on the scripted server: the comment lacks [postId]. *)
Lemma missing_keys_subsequence_witness :
  ["postId"] `sublist_of` ["id"; "name"; "email"; "body"; "postId"]
  ∧ ∀ key, key ∈ ["postId"] →
           key ∈ ["id"; "name"; "email"; "body"; "postId"].
Proof.
  eapply (missing_keys_subsequence Mock.serve Mock.base_url "/comments" 200
            (Some ["id"; "name"; "email"; "body"; "postId"]) "GET" None
            Mock.start).
  - vm_compute. reflexivity.
  - reflexivity.
Defined.

(** C7 on the scripted server. *)
Lemma missing_keys_fail_content_check_witness :
  ∃ r w',
    test_endpoint Mock.serve Mock.base_url "/comments" 200
      (Some ["id"; "name"; "email"; "body"; "postId"]) "GET" None Mock.start
    = (inr r, w')
    ∧ r !! "missing_keys" = Some (VList ["postId"])
    ∧ r !! "content_check" = Some (VBool false)
    ∧ keys_of (Some ["id"; "name"; "email"; "body"; "postId"]) ≠ [].
Proof.
  eexists _, _.
  split; [vm_compute; reflexivity|]. split; [reflexivity|].
  eapply (missing_keys_fail_content_check Mock.serve Mock.base_url "/comments"
            200 (Some ["id"; "name"; "email"; "body"; "postId"]) "GET" None
            Mock.start _ _ ["postId"]).
  - vm_compute. reflexivity.
  - reflexivity.
  - discriminate.
Defined.

(** C8 on the scripted server, whose state changes with every request and
    whose answers do not depend on it. *)
Lemma run_tests_repeatable_witness :
  (run_tests Mock.serve Mock.base_url
     [Mock.users; Mock.posts; Mock.comments; Mock.unreachable]
     (run_tests Mock.serve Mock.base_url
        [Mock.users; Mock.posts; Mock.comments; Mock.unreachable]
        Mock.start).2).1
  = (run_tests Mock.serve Mock.base_url
       [Mock.users; Mock.posts; Mock.comments; Mock.unreachable]
       Mock.start).1.
Proof.
  apply (run_tests_repeatable Mock.serve Mock.base_url
           [Mock.users; Mock.posts; Mock.comments; Mock.unreachable]
           Mock.start).
  intros s s' req. reflexivity.
Defined.

(** C9 on the scripted server: a POST that cannot connect. *)
Lemma error_result_fields_witness :
  ∃ r w',
    test_endpoint Mock.serve Mock.base_url "/nowhere" 200 (Some ["id"])
      "POST" None Mock.start = (inr r, w')
    ∧ dom r = ({[ "endpoint"; "method"; "error"; "result" ]} : gset string)
    ∧ r !! "status" = None
    ∧ r !! "expected_status" = None
    ∧ r !! "status_check" = None
    ∧ r !! "content_check" = None
    ∧ r !! "missing_keys" = None.
Proof.
  eexists _, _. split; [vm_compute; reflexivity|].
  eapply (error_result_fields Mock.serve Mock.base_url "/nowhere" 200
            (Some ["id"]) "POST" None Mock.start).
  - vm_compute. reflexivity.
  - reflexivity.
Defined.

(** C10 on the scripted server: [/names] answers with an array that holds
    the strings [id] and [name] and the number 3. *)
Lemma content_check_on_array_witness :
  ∃ r content_check,
    test_endpoint Mock.serve Mock.base_url "/names" 200
      (Some ["id"; "x"; "name"]) "GET" None Mock.start
    = (inr r, Mock.after (Request "GET" "http://mock/names" None))
    ∧ r !! "content_check" = Some (VBool content_check)
    ∧ (content_check = true
       ↔ ∀ key, key ∈ keys_of (Some ["id"; "x"; "name"]) →
                JStr key ∈ [JStr "id"; JStr "name"; JNum "3"])
    ∧ r !! "missing_keys"
      = Some (VList (filter
                (λ key, JStr key ∉ [JStr "id"; JStr "name"; JNum "3"])
                (keys_of (Some ["id"; "x"; "name"])))).
Proof.
  apply (content_check_on_array Mock.serve Mock.base_url "/names" 200
           (Some ["id"; "x"; "name"]) "GET" None Mock.start
           (Mock.after (Request "GET" "http://mock/names" None))
           (Response 200 Mock.json_headers
              (inr (JArr [JStr "id"; JStr "name"; JNum "3"])))
           [JStr "id"; JStr "name"; JNum "3"]).
  - vm_compute. reflexivity.
  - reflexivity.
  - simpl. discriminate.
  - reflexivity.
Defined.

(** On that array the missing key is [x]. *)
Example names_missing :
  filter (λ key, JStr key ∉ [JStr "id"; JStr "name"; JNum "3"])
    ["id"; "x"; "name"] = ["x"].
Proof. reflexivity. Qed.

(** ** Further properties: one test *)

Section OneTest.

Context {St : Type}.
Variable serve : St → request → outcome * St.
Variable base_url : string.

(** X1.  A test with a supported method sends exactly one request, whether
    it ends with a result or with an exception: the request has the method
    given, goes to the base URL followed by the endpoint, and carries the
    payload for POST and PUT only; the server makes one step on it. *)
Theorem test_endpoint_sends_one_request (endpoint : string)
    (expected_status : Z) (expected_keys : option (list string))
    (method : string) (payload : option json) (w : world St) :
  method ∈ supported_methods →
  let req :=
    Request method (base_url +:+ endpoint)
      (if bool_decide (method = "POST") || bool_decide (method = "PUT")
       then payload else None) in
  (test_endpoint serve base_url endpoint expected_status expected_keys
     method payload w).2
  = World (serve (server w) req).2 (sent w ++ [req]).
Proof.
  intros Hm req. rewrite test_endpoint_unfold, dispatch_request by done.
  rewrite send_unfold. fold (carries_payload method).
  change (request_for method (base_url +:+ endpoint) payload) with req.
  destruct (serve (server w) req).1 as [response|msg]; simpl; [|reflexivity].
  destruct (content_checks expected_keys response) as [e|[cc mk]];
    [|reflexivity].
  by destruct (isinstance_RequestException e).
Qed.

(** X2.  A failure of the transport never leaves [test_endpoint]: it comes
    back as a result with verdict ERROR, the description of the failure as
    its [error], and the endpoint and method of the call. *)
Theorem transport_failure_is_error (endpoint : string) (expected_status : Z)
    (expected_keys : option (list string)) (method : string)
    (payload : option json) (w : world St) (msg : string) :
  method ∈ supported_methods →
  (serve (server w) (request_for method (base_url +:+ endpoint) payload)).1
    = Failed msg →
  ∃ r w',
    test_endpoint serve base_url endpoint expected_status expected_keys
      method payload w = (inr r, w')
    ∧ r !! "result" = Some (VStr "ERROR")
    ∧ r !! "error" = Some (VStr msg)
    ∧ r !! "endpoint" = Some (VStr endpoint)
    ∧ r !! "method" = Some (VStr method).
Proof.
  intros Hm Hfail.
  rewrite test_endpoint_unfold, dispatch_request, send_unfold, Hfail by done.
  simpl. eexists _, _. split; [reflexivity|]. done.
Qed.

(** How [test_endpoint] can raise. *)
Lemma test_endpoint_raises_cases (endpoint : string) (expected_status : Z)
    (expected_keys : option (list string)) (method : string)
    (payload : option json) (w w' : world St) (e : exn) :
  test_endpoint serve base_url endpoint expected_status expected_keys
    method payload w = (inl e, w') →
  (e = ValueError "Unsupported HTTP method"
   ∧ (method ∉ supported_methods) ∧ w' = w)
  ∨ ((method ∈ supported_methods)
     ∧ keys_of expected_keys ≠ []
     ∧ isinstance_RequestException e = false
     ∧ ∃ response,
         (serve (server w)
            (request_for method (base_url +:+ endpoint) payload)).1
           = Responded response
         ∧ declares_json response
         ∧ (body response = inl e
            ∨ ∃ j msg, body response = inr j ∧ is_container j = false
                       ∧ e = TypeError msg)).
Proof.
  rewrite test_endpoint_unfold.
  destruct (decide (method ∈ supported_methods)) as [Hm|Hm].
  2:{ rewrite dispatch_unsupported by done. simpl.
      intros [= <- <-]. left. done. }
  rewrite dispatch_request, send_unfold by done.
  destruct (serve _ _).1 as [response|msg] eqn:Hserve; simpl; [|done].
  destruct (decide (keys_of expected_keys = [])) as [Hk|Hk].
  { rewrite content_checks_skipped by auto. done. }
  destruct (decide (declares_json response)) as [Hj|Hj].
  2:{ rewrite content_checks_skipped by auto. done. }
  destruct (body response) as [e'|j] eqn:Hb.
  { rewrite (content_checks_unparsed _ _ e') by done.
    destruct (isinstance_RequestException e') eqn:He; [done|].
    intros [= <- <-]. right. repeat split; try done.
    exists response. auto. }
  destruct (is_container j) eqn:Hc.
  { rewrite (content_checks_container _ _ j) by done. done. }
  destruct (content_checks_scalar expected_keys response j Hk Hj Hb Hc)
    as [msg ->].
  simpl. intros [= <- <-]. right. repeat split; try done.
  exists response. split; [done|]. split; [done|]. right. eauto.
Qed.


(** X4.  When a body that declares JSON parses to a number, a boolean or
    null and keys are expected, the test builds no result at all: it raises a
    [TypeError], after the request has been sent. *)
Theorem scalar_body_raises (endpoint : string) (expected_status : Z)
    (expected_keys : option (list string)) (method : string)
    (payload : option json) (w w1 : world St) (response : response)
    (j : json) :
  dispatch serve method (base_url +:+ endpoint) payload w
    = (inr response, w1) →
  declares_json response →
  keys_of expected_keys ≠ [] →
  body response = inr j →
  is_container j = false →
  ∃ msg,
    test_endpoint serve base_url endpoint expected_status expected_keys
      method payload w = (inl (TypeError msg), w1).
Proof.
  intros Hd Hj Hk Hb Hc.
  destruct (content_checks_scalar expected_keys response j Hk Hj Hb Hc)
    as [msg Hmsg].
  exists msg. by rewrite test_endpoint_unfold, Hd, Hmsg.
Qed.

(** X5.  Every result names the endpoint and the method of the call and
    carries one of the three verdicts; it has either the four fields of an
    error record or the eight fields of a checked record, and a checked
    record repeats the expected status that was given. *)
Theorem result_shape (endpoint : string) (expected_status : Z)
    (expected_keys : option (list string)) (method : string)
    (payload : option json) (w w' : world St) (r : gmap string pyval) :
  test_endpoint serve base_url endpoint expected_status expected_keys
    method payload w = (inr r, w') →
  r !! "endpoint" = Some (VStr endpoint)
  ∧ r !! "method" = Some (VStr method)
  ∧ ((r !! "result" = Some (VStr "ERROR")
      ∧ dom r = ({[ "endpoint"; "method"; "error"; "result" ]} : gset string))
     ∨ ((r !! "result" = Some (VStr "PASS")
         ∨ r !! "result" = Some (VStr "FAIL"))
        ∧ r !! "expected_status" = Some (VInt expected_status)
        ∧ dom r = ({[ "endpoint"; "method"; "status"; "expected_status";
                      "status_check"; "content_check"; "missing_keys";
                      "result" ]} : gset string))).
Proof.
  intros Hr.
  apply test_endpoint_returns in Hr
    as [(e & _ & ->)|(resp & w0 & cc & mk & _ & _ & ->)].
  - split; [reflexivity|]. split; [reflexivity|]. left.
    split; [reflexivity|apply error_result_dom].
  - split; [reflexivity|]. split; [reflexivity|]. right.
    split; [|split; [reflexivity|]].
    + rewrite final_result_verdict. unfold verdict_of.
      destruct (_ && _); auto.
    + unfold final_result, checked_result.
      rewrite !dom_insert_L, dom_empty_L. set_solver.
Qed.

(** X6.  With no expected keys the body is never read: whatever the body
    and the headers of the response are, the test returns a checked result
    whose verdict is PASS iff the status code is the expected one. *)
Theorem status_only_test (endpoint : string) (expected_status : Z)
    (expected_keys : option (list string)) (method : string)
    (payload : option json) (w w1 : world St) (response : response) :
  dispatch serve method (base_url +:+ endpoint) payload w
    = (inr response, w1) →
  keys_of expected_keys = [] →
  ∃ r,
    test_endpoint serve base_url endpoint expected_status expected_keys
      method payload w = (inr r, w1)
    ∧ r !! "status" = Some (VInt (status_code response))
    ∧ (r !! "result" = Some (VStr "PASS")
       ↔ status_code response = expected_status)
    ∧ (r !! "result" = Some (VStr "FAIL")
       ↔ status_code response ≠ expected_status).
Proof.
  intros Hd Hk.
  rewrite test_endpoint_unfold, Hd, content_checks_skipped by auto.
  eexists. split; [reflexivity|]. split; [reflexivity|].
  rewrite final_result_verdict. unfold verdict_of.
  case_bool_decide; simpl; split; split; intros; congruence.
Qed.

End OneTest.

(** *** A body that is a JSON string *)

Lemma prefix_append (key s : string) :
  String.prefix key s = true ↔ ∃ after, s = key +:+ after.
Proof.
  revert s. induction key as [|c key IH]; intros s; simpl.
  - destruct s; split; eauto.
  - destruct s as [|d s]; simpl.
    + split; [done|]. intros [after H]. discriminate H.
    + destruct (Ascii.ascii_dec c d) as [->|Hne].
      * rewrite IH. split; intros [after H]; exists after.
        -- rewrite H. reflexivity.
        -- by injection H.
      * split; [done|]. intros [after H]. injection H as Hcd _. by subst.
Qed.

Lemma str_contains_unfold (key s : string) :
  str_contains key s
  = String.prefix key s
    || match s with
       | EmptyString => false
       | String _ rest => str_contains key rest
       end.
Proof. by destruct s. Qed.

Lemma str_contains_substring (key s : string) :
  str_contains key s = true ↔ ∃ before after, s = before +:+ key +:+ after.
Proof.
  induction s as [|c s IH]; rewrite str_contains_unfold.
  - rewrite orb_false_r, prefix_append. split.
    + intros [after H]. by exists "", after.
    + intros (before & after & H). destruct before; [by exists after|].
      discriminate H.
  - rewrite orb_true_iff, prefix_append, IH. split.
    + intros [[after H]|(before & after & H)].
      * by exists "", after.
      * exists (String c before), after. rewrite H. reflexivity.
    + intros (before & after & H). destruct before as [|d before].
      * left. by exists after.
      * right. exists before, after. by injection H.
Qed.

Section StringBody.

Context {St : Type}.
Variable serve : St → request → outcome * St.
Variable base_url : string.

(** X7.  When a body that declares JSON parses to a JSON string and keys are
    expected, each key is looked for inside the string: the content check is
    true iff every expected key is a substring of the body, and the missing
    keys are the expected keys that are not. *)
Theorem content_check_on_string (endpoint : string) (expected_status : Z)
    (expected_keys : option (list string)) (method : string)
    (payload : option json) (w w1 : world St) (response : response)
    (text : string) :
  dispatch serve method (base_url +:+ endpoint) payload w
    = (inr response, w1) →
  declares_json response →
  keys_of expected_keys ≠ [] →
  body response = inr (JStr text) →
  ∃ r content_check missing_keys,
    test_endpoint serve base_url endpoint expected_status expected_keys
      method payload w = (inr r, w1)
    ∧ r !! "content_check" = Some (VBool content_check)
    ∧ r !! "missing_keys" = Some (VList missing_keys)
    ∧ (content_check = true
       ↔ ∀ key, key ∈ keys_of expected_keys →
                ∃ before after, text = before +:+ key +:+ after)
    ∧ (∀ key, key ∈ missing_keys
              ↔ key ∈ keys_of expected_keys
                ∧ ¬ ∃ before after, text = before +:+ key +:+ after)
    ∧ missing_keys `sublist_of` keys_of expected_keys.
Proof.
  intros Hd Hj Hk Hb.
  rewrite test_endpoint_unfold, Hd,
    (content_checks_container _ _ (JStr text)) by done.
  eexists _, _, _. split; [reflexivity|].
  rewrite final_result_content_check, final_result_missing_keys.
  split; [reflexivity|]. split; [reflexivity|]. simpl. split; [|split].
  - rewrite forallb_true_elem_of.
    by setoid_rewrite str_contains_substring.
  - intros key. rewrite list_elem_of_filter, <- str_contains_substring.
    destruct (str_contains key text); split; intros [? ?]; split;
      congruence.
  - apply sublist_filter.
Qed.

End StringBody.

(** ** Further properties: the loop *)

Section Loop.

Context {St : Type}.
Variable serve : St → request → outcome * St.
Variable base_url : string.

(** X8.  Testing a list in two parts gives what testing it at once gives:
    if the first part returns its results and the second part, run in the
    world that the first left, returns its own, then the run on the whole
    list returns the first results followed by the second. *)
Theorem run_tests_composes (first second : list EndpointSpec)
    (w w1 w2 : world St) (results more : list (gmap string pyval)) :
  run_tests serve base_url first w = (inr results, w1) →
  run_tests serve base_url second w1 = (inr more, w2) →
  run_tests serve base_url (first ++ second) w = (inr (results ++ more), w2).
Proof.
  intros H1 H2. by rewrite run_tests_app, H1, H2.
Qed.

(** X9.  The first test that raises ends the run with its exception, in the
    world that this test left: the results of the tests before it are lost
    and no test after it is made. *)
Theorem first_exception_ends_run (before rest : list EndpointSpec)
    (ep : EndpointSpec) (w0 w w1 : world St)
    (results : list (gmap string pyval)) (e : exn) :
  run_tests serve base_url before w0 = (inr results, w) →
  test_spec serve base_url ep w = (inl e, w1) →
  run_tests serve base_url (before ++ ep :: rest) w0 = (inl e, w1).
Proof.
  intros Hbefore Hep.
  by rewrite run_tests_app, Hbefore, run_tests_cons, Hep.
Qed.

Lemma test_spec_sent (ep : EndpointSpec) (w : world St) :
  method_of ep ∈ supported_methods →
  sent (test_spec serve base_url ep w).2
  = sent w ++ [request_of base_url ep].
Proof.
  intros Hm. unfold test_spec.
  rewrite (test_endpoint_sends_one_request serve base_url (ep_endpoint ep)
             (default 200 (ep_expected_status ep))
             (Some (default [] (ep_expected_keys ep)))
             (default "GET" (ep_method ep)) (ep_payload ep) w Hm).
  reflexivity.
Qed.

Lemma test_spec_returns_sent (ep : EndpointSpec) (w w1 : world St)
    (r : gmap string pyval) :
  test_spec serve base_url ep w = (inr r, w1) →
  sent w1 = sent w ++ [request_of base_url ep].
Proof.
  intros Hr.
  destruct (decide (method_of ep ∈ supported_methods)) as [Hm|Hm].
  - pose proof (test_spec_sent ep w Hm) as Hsent.
    by rewrite Hr in Hsent.
  - unfold test_spec in Hr. rewrite test_endpoint_unfold in Hr.
    fold (method_of ep) in Hr.
    by rewrite dispatch_unsupported in Hr.
Qed.

(** X10.  A run that returns has made one test and sent one request for
    each descriptor: the results are as many as the descriptors, and the
    requests added to the log are those of the descriptors, in their
    order. *)
Theorem run_tests_requests (endpoints : list EndpointSpec) (w w' : world St)
    (results : list (gmap string pyval)) :
  run_tests serve base_url endpoints w = (inr results, w') →
  length results = length endpoints
  ∧ sent w' = sent w ++ map (request_of base_url) endpoints.
Proof.
  revert w results. induction endpoints as [|ep rest IH]; intros w results.
  - rewrite run_tests_nil. intros [= <- <-]. by rewrite app_nil_r.
  - rewrite run_tests_cons.
    destruct (test_spec serve base_url ep w) as [[e|r] w1] eqn:Hep; [done|].
    destruct (run_tests serve base_url rest w1) as [[e|rs] w2] eqn:Hrest;
      [done|].
    intros [= <- <-]. destruct (IH _ _ Hrest) as [Hlen Hsent].
    split; [simpl; by rewrite Hlen|].
    rewrite Hsent, (test_spec_returns_sent _ _ _ _ Hep). simpl.
    by rewrite <- app_assoc.
Qed.

(** X11.  Whether a run returns or raises, it never sends more than one
    request for a descriptor and never sends them out of order: the requests
    that it adds to the log are those of the first [n] descriptors, for some
    [n] that is at most the number of descriptors. *)
Theorem run_tests_sends_in_order (endpoints : list EndpointSpec)
    (w : world St) :
  ∃ n, (n ≤ length endpoints)%nat
       ∧ sent (run_tests serve base_url endpoints w).2
         = sent w ++ map (request_of base_url) (take n endpoints).
Proof.
  revert w. induction endpoints as [|ep rest IH]; intros w.
  - exists 0%nat. split; [done|]. simpl. by rewrite app_nil_r.
  - destruct (test_spec serve base_url ep w) as [[e|r] w1] eqn:Hep.
    + rewrite run_tests_cons, Hep. unfold test_spec in Hep.
      destruct (test_endpoint_raises_cases _ _ _ _ _ _ _ _ _ _ Hep)
        as [(_ & _ & ->)|(Hm & _)].
      * exists 0%nat. split; [simpl; lia|]. simpl. by rewrite app_nil_r.
      * exists 1%nat. split; [simpl; lia|].
        pose proof (test_spec_sent ep w Hm) as Hsent.
        unfold test_spec in Hsent. rewrite Hep in Hsent.
        exact Hsent.
    + destruct (IH w1) as (n & Hn & Hsent).
      exists (S n). split; [simpl; lia|].
      rewrite (run_tests_cons_world serve base_url ep rest w w1 r Hep).
      rewrite Hsent, (test_spec_returns_sent _ _ _ _ Hep), <- app_assoc.
      reflexivity.
Qed.

End Loop.

(** ** Further properties: the summary *)

Section Report.

Variable repr : string → string.

Lemma print_result_error (endpoint method : string) (e : exn) :
  print_result repr (error_result endpoint method e)
  = (inr tt, [headline endpoint method "ERROR"; " - Error: " +:+ str e]).
Proof. reflexivity. Qed.

Lemma print_result_final (endpoint method : string) (status expected : Z)
    (content_check : bool) (missing_keys : list string) :
  print_result repr
    (final_result endpoint method status expected content_check missing_keys)
  = (inr tt,
     headline endpoint method
       (verdict_of (bool_decide (status = expected)) content_check)
     :: checked_details repr (bool_decide (status = expected)) content_check
          missing_keys).
Proof.
  unfold final_result.
  destruct (bool_decide (status = expected)), content_check,
    missing_keys as [|key rest]; reflexivity.
Qed.

Context {St : Type}.
Variable serve : St → request → outcome * St.
Variable base_url : string.

(** X12.  Printing a result of [test_endpoint] never fails on a missing
    field.  It prints the line that names the endpoint, the method and the
    verdict; nothing more for PASS; the error message for ERROR; for FAIL the
    outcome of the two checks and, only when some key is missing, the list of
    the missing keys. *)
Theorem print_result_of_test (endpoint : string) (expected_status : Z)
    (expected_keys : option (list string)) (method : string)
    (payload : option json) (w w' : world St) (r : gmap string pyval) :
  test_endpoint serve base_url endpoint expected_status expected_keys
    method payload w = (inr r, w') →
  ∃ verdict details,
    r !! "result" = Some (VStr verdict)
    ∧ print_result repr r
      = (inr tt, headline endpoint method verdict :: details)
    ∧ (verdict = "PASS" → details = [])
    ∧ (verdict = "ERROR" →
       ∃ msg, r !! "error" = Some (VStr msg)
              ∧ details = [" - Error: " +:+ msg])
    ∧ (verdict = "FAIL" →
       ∃ status_check content_check missing_keys,
         r !! "status_check" = Some (VBool status_check)
         ∧ r !! "content_check" = Some (VBool content_check)
         ∧ r !! "missing_keys" = Some (VList missing_keys)
         ∧ details
           = [" - Status Check: " +:+ pass_or_fail status_check;
              " - Content Check: " +:+ pass_or_fail content_check]
             ++ (if bool_decide (missing_keys = []) then []
                 else [" - Missing Keys: " +:+ repr_list repr missing_keys])).
Proof.
  intros Hr.
  apply test_endpoint_returns in Hr
    as [(e & _ & ->)|(resp & w0 & cc & mk & _ & _ & ->)].
  - exists "ERROR", [" - Error: " +:+ str e].
    split; [reflexivity|]. split; [apply print_result_error|].
    split; [done|]. split; [|done]. intros _. by exists (str e).
  - eexists _, _. split; [apply final_result_verdict|].
    split; [apply print_result_final|].
    rewrite final_result_status_check, final_result_content_check,
      final_result_missing_keys.
    unfold verdict_of, checked_details.
    destruct (bool_decide (status_code resp = expected_status)), cc; simpl;
      (split; [done|]; split; [done|]); try done;
      intros _; eexists _, _, mk; (repeat split);
      by destruct mk.
Qed.

Lemma print_results_cons (r : gmap string pyval)
    (rest : list (gmap string pyval)) (block lines : list string) :
  print_result repr r = (inr tt, block) →
  print_results repr rest = (inr tt, lines) →
  print_results repr (r :: rest) = (inr tt, block ++ lines).
Proof.
  intros Hr Hrest. simpl. unfold out_bind. by rewrite Hr, Hrest.
Qed.

(** X13.  The summary of a run that returned never fails on a missing
    field.  After its title line it is made of one block of lines per
    descriptor, in the order of the descriptors; each block starts with the
    line that names the endpoint and the method of its descriptor and a
    verdict, and has at most three more lines. *)
Theorem summary_of_run (endpoints : list EndpointSpec) (w w' : world St)
    (results : list (gmap string pyval)) :
  run_tests serve base_url endpoints w = (inr results, w') →
  ∃ blocks,
    print_summary repr results
      = (inr tt, (newline +:+ "Test Summary:") :: concat blocks)
    ∧ Forall2
        (λ ep block,
           ∃ verdict details,
             block = headline (ep_endpoint ep) (method_of ep) verdict
                     :: details
             ∧ verdict ∈ ["PASS"; "FAIL"; "ERROR"]
             ∧ (length details ≤ 3)%nat)
        endpoints blocks.
Proof.
  intros Hrun.
  assert (∃ blocks,
            print_results repr results = (inr tt, concat blocks)
            ∧ Forall2
                (λ ep block,
                   ∃ verdict details,
                     block = headline (ep_endpoint ep) (method_of ep) verdict
                             :: details
                     ∧ verdict ∈ ["PASS"; "FAIL"; "ERROR"]
                     ∧ (length details ≤ 3)%nat)
                endpoints blocks) as (blocks & Hprint & Hblocks).
  { revert w results Hrun.
    induction endpoints as [|ep rest IH]; intros w results.
    - rewrite run_tests_nil. intros [= <- <-]. exists []. split; [done|].
      constructor.
    - rewrite run_tests_cons.
      destruct (test_spec serve base_url ep w) as [[e|r] w1] eqn:Hep; [done|].
      destruct (run_tests serve base_url rest w1) as [[e|rs] w2] eqn:Hrest;
        [done|].
      intros [= <- <-].
      destruct (IH _ _ Hrest) as (blocks & Hprint & Hblocks).
      unfold test_spec in Hep. fold (method_of ep) in Hep.
      apply test_endpoint_returns in Hep
        as [(e & _ & ->)|(resp & w0 & cc & mk & _ & _ & ->)].
      + exists ([headline (ep_endpoint ep) (method_of ep) "ERROR";
                 " - Error: " +:+ str e] :: blocks).
        split.
        * apply print_results_cons; [apply print_result_error|exact Hprint].
        * constructor; [|exact Hblocks].
          eexists _, _. split; [reflexivity|].
          split; [repeat constructor|simpl; lia].
      + eexists (_ :: blocks). split.
        * apply print_results_cons; [apply print_result_final|exact Hprint].
        * constructor; [|exact Hblocks].
          eexists _, _. split; [reflexivity|]. split.
          -- unfold verdict_of. destruct (_ && _); repeat constructor.
          -- unfold checked_details.
             destruct (_ && _), mk; simpl; lia. }
  exists blocks. split; [|exact Hblocks].
  unfold print_summary, out_bind, print. by rewrite Hprint.
Qed.

(** X14.  The whole of [run_tests] ends in one of two ways, and never with
    a [KeyError] of the summary.  Either the loop raised: then that
    exception leaves [run_tests] and not a single line is printed, not even
    for the endpoints that were tested.  Or the loop returned: then no
    exception leaves it, and the title line is printed followed by at least
    one line and at most four lines per descriptor. *)
Theorem run_tests_report_cases (endpoints : list EndpointSpec) (w : world St) :
  (∃ e w',
     run_tests serve base_url endpoints w = (inl e, w')
     ∧ run_tests_report repr serve base_url endpoints w
       = (Some (InLoop e), [], w'))
  ∨ (∃ results w' lines,
       run_tests serve base_url endpoints w = (inr results, w')
       ∧ run_tests_report repr serve base_url endpoints w
         = (None, (newline +:+ "Test Summary:") :: lines, w')
       ∧ (length endpoints ≤ length lines ≤ 4 * length endpoints)%nat).
Proof.
  unfold run_tests_report.
  destruct (run_tests serve base_url endpoints w) as [[e|results] w'] eqn:Hrun.
  { left. eauto. }
  right. destruct (summary_of_run _ _ _ _ Hrun) as (blocks & -> & Hblocks).
  exists results, w', (concat blocks). split; [reflexivity|].
  split; [reflexivity|].
  clear Hrun. induction Hblocks as [|ep block eps blocks Hb _ IH].
  - simpl. lia.
  - destruct Hb as (verdict & details & -> & _ & Hlen).
    simpl. rewrite length_app. simpl in *. lia.
Qed.

End Report.

(** ** The further properties on the scripted server *)

Lemma test_endpoint_sends_one_request_witness :
  (test_endpoint Mock.serve Mock.base_url "/nowhere" 200 None "POST"
     (Some (JObj ∅)) Mock.start).2
  = World 1%nat [Request "POST" "http://mock/nowhere" (Some (JObj ∅))].
Proof.
  apply (test_endpoint_sends_one_request Mock.serve Mock.base_url "/nowhere"
           200 None "POST" (Some (JObj ∅)) Mock.start).
  apply (bool_decide_unpack _). vm_compute. exact I.
Defined.

Lemma transport_failure_is_error_witness :
  ∃ r w',
    test_endpoint Mock.serve Mock.base_url "/nowhere" 200 (Some ["id"])
      "DELETE" None Mock.start = (inr r, w')
    ∧ r !! "result" = Some (VStr "ERROR")
    ∧ r !! "error" = Some (VStr "Connection refused")
    ∧ r !! "endpoint" = Some (VStr "/nowhere")
    ∧ r !! "method" = Some (VStr "DELETE").
Proof.
  apply (transport_failure_is_error Mock.serve Mock.base_url "/nowhere" 200
           (Some ["id"]) "DELETE" None Mock.start "Connection refused").
  - apply (bool_decide_unpack _). vm_compute. exact I.
  - vm_compute. reflexivity.
Defined.


Lemma scalar_body_raises_witness :
  ∃ msg,
    test_endpoint Mock.serve_count Mock.base_url "/count" 200 (Some ["id"])
      "GET" None Mock.start
    = (inl (TypeError msg),
       Mock.after (Request "GET" "http://mock/count" None)).
Proof.
  apply (scalar_body_raises Mock.serve_count Mock.base_url "/count" 200
           (Some ["id"]) "GET" None Mock.start
           (Mock.after (Request "GET" "http://mock/count" None))
           (Response 200 Mock.json_headers (inr (JNum "42"))) (JNum "42")).
  - vm_compute. reflexivity.
  - reflexivity.
  - simpl. discriminate.
  - reflexivity.
  - reflexivity.
Defined.

Lemma result_shape_witness :
  final_result "/comments" "GET" 200 200 false ["postId"] !! "endpoint"
    = Some (VStr "/comments")
  ∧ final_result "/comments" "GET" 200 200 false ["postId"] !! "method"
    = Some (VStr "GET")
  ∧ ((final_result "/comments" "GET" 200 200 false ["postId"] !! "result"
        = Some (VStr "ERROR")
      ∧ dom (final_result "/comments" "GET" 200 200 false ["postId"])
        = ({[ "endpoint"; "method"; "error"; "result" ]} : gset string))
     ∨ ((final_result "/comments" "GET" 200 200 false ["postId"] !! "result"
           = Some (VStr "PASS")
         ∨ final_result "/comments" "GET" 200 200 false ["postId"] !! "result"
           = Some (VStr "FAIL"))
        ∧ final_result "/comments" "GET" 200 200 false ["postId"]
            !! "expected_status" = Some (VInt 200)
        ∧ dom (final_result "/comments" "GET" 200 200 false ["postId"])
          = ({[ "endpoint"; "method"; "status"; "expected_status";
                "status_check"; "content_check"; "missing_keys";
                "result" ]} : gset string))).
Proof.
  apply (result_shape Mock.serve Mock.base_url "/comments" 200
           (Some ["id"; "postId"]) "GET" None Mock.start
           (Mock.after (Request "GET" "http://mock/comments" None))
           (final_result "/comments" "GET" 200 200 false ["postId"])).
  vm_compute. reflexivity.
Defined.

Lemma status_only_test_witness :
  ∃ r,
    test_endpoint Mock.serve Mock.base_url "/broken" 404 None "GET" None
      Mock.start
    = (inr r, Mock.after (Request "GET" "http://mock/broken" None))
    ∧ r !! "status" = Some (VInt 404)
    ∧ (r !! "result" = Some (VStr "PASS") ↔ 404 = 404)
    ∧ (r !! "result" = Some (VStr "FAIL") ↔ 404 ≠ 404).
Proof.
  apply (status_only_test Mock.serve Mock.base_url "/broken" 404 None "GET"
           None Mock.start
           (Mock.after (Request "GET" "http://mock/broken" None))
           (Response 404 Mock.json_headers (inl (JSONDecodeError "Expecting value")))).
  - vm_compute. reflexivity.
  - reflexivity.
Defined.

Lemma content_check_on_string_witness :
  ∃ r content_check missing_keys,
    test_endpoint Mock.serve_text Mock.base_url "/text" 200
      (Some ["id"; "email"; "name"]) "GET" None Mock.start
    = (inr r, Mock.after (Request "GET" "http://mock/text" None))
    ∧ r !! "content_check" = Some (VBool content_check)
    ∧ r !! "missing_keys" = Some (VList missing_keys)
    ∧ (content_check = true
       ↔ ∀ key, key ∈ keys_of (Some ["id"; "email"; "name"]) →
                ∃ before after, "valid name" = before +:+ key +:+ after)
    ∧ (∀ key, key ∈ missing_keys
              ↔ key ∈ keys_of (Some ["id"; "email"; "name"])
                ∧ ¬ ∃ before after, "valid name" = before +:+ key +:+ after)
    ∧ missing_keys `sublist_of` keys_of (Some ["id"; "email"; "name"]).
Proof.
  apply (content_check_on_string Mock.serve_text Mock.base_url "/text" 200
           (Some ["id"; "email"; "name"]) "GET" None Mock.start
           (Mock.after (Request "GET" "http://mock/text" None))
           (Response 200 Mock.json_headers (inr (JStr "valid name")))
           "valid name").
  - vm_compute. reflexivity.
  - reflexivity.
  - simpl. discriminate.
  - reflexivity.
Defined.

(** On that body, [id] is found inside [valid] and only [email] is
    missing. *)
Example text_missing :
  ∃ r w',
    test_spec Mock.serve_text Mock.base_url Mock.text Mock.start = (inr r, w')
    ∧ r !! "missing_keys" = Some (VList ["email"]).
Proof. eexists _, _. split; [vm_compute; reflexivity|reflexivity]. Qed.

Lemma run_tests_composes_witness :
  run_tests Mock.serve Mock.base_url ([Mock.users] ++ [Mock.posts]) Mock.start
  = (inr ([final_result "/users" "GET" 200 200 true []]
          ++ [final_result "/posts" "GET" 404 200 true []]),
     World 2%nat [Request "GET" "http://mock/users" None;
                  Request "GET" "http://mock/posts" None]).
Proof.
  apply (run_tests_composes Mock.serve Mock.base_url [Mock.users]
           [Mock.posts] Mock.start
           (Mock.after (Request "GET" "http://mock/users" None))).
  - vm_compute. reflexivity.
  - vm_compute. reflexivity.
Defined.

Lemma first_exception_ends_run_witness :
  ∃ msg,
    run_tests Mock.serve_count Mock.base_url
      ([Mock.users] ++ Mock.count :: [Mock.posts]) Mock.start
    = (inl (TypeError msg),
       World 2%nat [Request "GET" "http://mock/users" None;
                    Request "GET" "http://mock/count" None]).
Proof.
  eexists.
  eapply (first_exception_ends_run Mock.serve_count Mock.base_url
            [Mock.users] [Mock.posts] Mock.count Mock.start).
  - vm_compute. reflexivity.
  - vm_compute. reflexivity.
Defined.

Lemma run_tests_requests_witness :
  length [final_result "/users" "GET" 200 200 true [];
          error_result "/nowhere" "POST" (RequestException "Connection refused");
          final_result "/users" "GET" 200 200 true []]
  = length [Mock.users; Mock.unreachable; Mock.users]
  ∧ sent (World 3%nat
            [Request "GET" "http://mock/users" None;
             Request "POST" "http://mock/nowhere" (Some (JObj ∅));
             Request "GET" "http://mock/users" None])
    = sent Mock.start
      ++ map (request_of Mock.base_url)
           [Mock.users; Mock.unreachable; Mock.users].
Proof.
  apply (run_tests_requests Mock.serve Mock.base_url
           [Mock.users; Mock.unreachable; Mock.users] Mock.start).
  vm_compute. reflexivity.
Defined.

Lemma print_result_of_test_witness :
  ∃ verdict details,
    final_result "/comments" "GET" 200 200 false ["postId"] !! "result"
      = Some (VStr verdict)
    ∧ print_result Mock.quote
        (final_result "/comments" "GET" 200 200 false ["postId"])
      = (inr tt, headline "/comments" "GET" verdict :: details)
    ∧ (verdict = "PASS" → details = [])
    ∧ (verdict = "ERROR" →
       ∃ msg,
         final_result "/comments" "GET" 200 200 false ["postId"] !! "error"
           = Some (VStr msg)
         ∧ details = [" - Error: " +:+ msg])
    ∧ (verdict = "FAIL" →
       ∃ status_check content_check missing_keys,
         final_result "/comments" "GET" 200 200 false ["postId"]
           !! "status_check" = Some (VBool status_check)
         ∧ final_result "/comments" "GET" 200 200 false ["postId"]
             !! "content_check" = Some (VBool content_check)
         ∧ final_result "/comments" "GET" 200 200 false ["postId"]
             !! "missing_keys" = Some (VList missing_keys)
         ∧ details
           = [" - Status Check: " +:+ pass_or_fail status_check;
              " - Content Check: " +:+ pass_or_fail content_check]
             ++ (if bool_decide (missing_keys = []) then []
                 else [" - Missing Keys: "
                       +:+ repr_list Mock.quote missing_keys])).
Proof.
  apply (print_result_of_test Mock.quote Mock.serve Mock.base_url
           "/comments" 200 (Some ["id"; "postId"]) "GET" None Mock.start
           (Mock.after (Request "GET" "http://mock/comments" None))
           (final_result "/comments" "GET" 200 200 false ["postId"])).
  vm_compute. reflexivity.
Defined.

Lemma summary_of_run_witness :
  ∃ blocks,
    print_summary Mock.quote
      [final_result "/users" "GET" 200 200 true [];
       error_result "/broken" "GET" (JSONDecodeError "Expecting value")]
    = (inr tt, (newline +:+ "Test Summary:") :: concat blocks)
    ∧ Forall2
        (λ ep block,
           ∃ verdict details,
             block = headline (ep_endpoint ep) (method_of ep) verdict
                     :: details
             ∧ verdict ∈ ["PASS"; "FAIL"; "ERROR"]
             ∧ (length details ≤ 3)%nat)
        [Mock.users; Mock.broken] blocks.
Proof.
  apply (summary_of_run Mock.quote Mock.serve Mock.base_url
           [Mock.users; Mock.broken] Mock.start
           (World 2%nat [Request "GET" "http://mock/users" None;
                         Request "GET" "http://mock/broken" None])).
  vm_compute. reflexivity.
Defined.

(** The report of a run on the scripted server, and of a run that raises. *)
Example report_on_mock :
  (run_tests_report Mock.quote Mock.serve Mock.base_url
     [Mock.users; Mock.posts; Mock.comments; Mock.unreachable] Mock.start).1
  = (None,
     [newline +:+ "Test Summary:";
      "Endpoint: /users, Method: GET, Result: PASS";
      "Endpoint: /posts, Method: GET, Result: FAIL";
      " - Status Check: Fail";
      " - Content Check: Pass";
      "Endpoint: /comments, Method: GET, Result: FAIL";
      " - Status Check: Pass";
      " - Content Check: Fail";
      " - Missing Keys: ['postId']";
      "Endpoint: /nowhere, Method: POST, Result: ERROR";
      " - Error: Connection refused"]).
Proof. vm_compute. reflexivity. Qed.

Example report_after_exception :
  (run_tests_report Mock.quote Mock.serve Mock.base_url
     [Mock.users; Mock.patch; Mock.posts] Mock.start).1
  = (Some (InLoop (ValueError "Unsupported HTTP method")), []).
Proof. vm_compute. reflexivity. Qed.
